(** * Preview engine: job lifecycle, queue and HTTP handlers

    A shallow embedding of the orchestrator API of the preview engine
    (services/generator.ts, services/queue.ts, the two index.ts servers and
    services/netlify.ts) and the properties of its job lifecycle.

    Asynchronous TypeScript functions are embedded as programs of a small
    free monad: every [await] of an external capability (the Dexie table
    [db.previews], the Bull queue, the file system, the clock, the Netlify
    API) is an [Await] node carrying the call and the continuation that
    receives its outcome.  A program is run against a handler that gives the
    capabilities their meaning; properties that hold whatever the
    capabilities answer are proved for every handler, the others against the
    [World] below.

    services/queue.ts as the sources have it holds three files: the queue,
    a first server that runs the pipeline inline ([Legacy] below) and the
    server of orchestrator-api. *)

From Stdlib Require Import ZArith String List Lia.
From stdpp Require Import gmap strings list fin_maps sorting pretty.

Local Open Scope string_scope.
Local Open Scope Z_scope.
Local Set Warnings "-register-all".

(** ** JavaScript values and errors *)

(** The values that cross the HTTP boundary (request bodies, response
    bodies).  Numbers are the integers the program computes with (counts,
    positions, milliseconds). *)
Inductive JsValue : Type :=
| VUndefined
| VNull
| VBool (b : bool)
| VNum (n : Z)
| VStr (s : string)
| VDate (ms : Z)
| VArr (items : list JsValue)
| VObj (fields : list (string * JsValue)).

(** ToBoolean, as used by [!x], [x || y], [x && y] and [x ? a : b]. *)
Definition truthy (v : JsValue) : bool :=
  match v with
  | VUndefined | VNull => false
  | VBool b => b
  | VNum n => negb (n =? 0)
  | VStr s => negb (String.eqb s "")
  | VDate _ | VArr _ | VObj _ => true
  end.

(** [x || y] *)
Definition js_or (x y : JsValue) : JsValue := if truthy x then x else y.

(** Property read [o.k]; in an object literal the last binding of a key
    wins, which is what makes [{...preview, queuePosition: q}] override. *)
Fixpoint assoc_last (k : string) (l : list (string * JsValue)) : option JsValue :=
  match l with
  | [] => None
  | (k', v) :: l' =>
      match assoc_last k l' with
      | Some v' => Some v'
      | None => if String.eqb k k' then Some v else None
      end
  end.

Definition get_field (k : string) (v : JsValue) : JsValue :=
  match v with
  | VObj l => default VUndefined (assoc_last k l)
  | _ => VUndefined
  end.

(** What a [catch] clause can receive.  The program does two things with a
    caught value that is no Error: it tests [instanceof Error] and it
    converts it to a string ([`${e}`], [String(e)]); such a value is given
    by the string the conversion yields (["42"] for the number 42, ["null"],
    ["a,b"] for the array of ["a"] and ["b"], and so on).  Of the body of an
    HTTP error response it reads [error.response?.data?.message], tests it
    for truth and converts it to a string: it is given as [None] when it is
    absent or falsy, and by its string otherwise. *)
Inductive JsError : Type :=
| Error (message : string)                       (* instanceof Error *)
| AxiosError (message : string) (response_message : option string)
                                                 (* axios.isAxiosError; error.response?.data?.message *)
| Thrown (text : string).                        (* a thrown value that is no Error *)

(** [error instanceof Error ? error.message : 'Unknown error'] *)
Definition message_or_unknown (e : JsError) : string :=
  match e with
  | Error m | AxiosError m _ => m
  | Thrown _ => "Unknown error"
  end.

(** [Error.prototype.toString]: the name alone when the message is empty. *)
Definition named (name message : string) : string :=
  if String.eqb message "" then name else name ++ ": " ++ message.

(** [`${error}`]: for an Error object, [Error.prototype.toString] on its
    name and message; the errors of the file system have the name Error,
    those of axios the name AxiosError. *)
Definition error_to_string (e : JsError) : string :=
  match e with
  | Error m => named "Error" m
  | AxiosError m _ => named "AxiosError" m
  | Thrown text => text
  end.

Inductive Outcome (A : Type) : Type :=
| Ok (a : A)
| Err (e : JsError).
Arguments Ok {A} a.
Arguments Err {A} e.

(** ** The data model *)

(** A row of [db.previews]. [prompt] and [userId] are copied from the
    request body as they come; [liveUrl] and [error] are [null] ([None])
    until set; [updatedAt] is absent in rows written by the legacy server. *)
Record Preview : Type := {
  pid : string;
  prompt : JsValue;
  userId : JsValue;
  status : string;
  liveUrl : option string;
  error : option string;
  createdAt : Z;
  updatedAt : option Z
}.

(** The second argument of [db.previews.update(id, changes)]: every update
    of the program sets [status]; the other keys are present or not. *)
Record Changes : Type := {
  ch_status : string;
  ch_liveUrl : option string;
  ch_error : option string;
  ch_updatedAt : option Z
}.

Definition apply_changes (ch : Changes) (p : Preview) : Preview :=
  {| pid := pid p;
     prompt := prompt p;
     userId := userId p;
     status := ch_status ch;
     liveUrl := match ch_liveUrl ch with Some u => Some u | None => liveUrl p end;
     error := match ch_error ch with Some e => Some e | None => error p end;
     createdAt := createdAt p;
     updatedAt := match ch_updatedAt ch with Some t => Some t | None => updatedAt p end |}.

(** generator.ts, [interface PreviewJobData] *)
Record PreviewJobData : Type := {
  jobId : string;
  job_prompt : JsValue;
  job_userId : JsValue
}.

(** The state of an entry of the Bull queue. *)
Inductive JobState : Type := Waiting | Active | Delayed | Completed | Failed.

#[export] Instance JobState_eq_dec : EqDecision JobState.
Proof. solve_decision. Defined.

Record QueueEntry : Type := {
  data : PreviewJobData;
  state : JobState;
  attemptsMade : nat;
  timeout : Z;
  delay : Z
}.

(** [previewQueue.getJobCounts()] *)
Record JobCounts : Type := {
  waiting : Z;
  active : Z;
  completed : Z;
  failed : Z;
  delayed : Z
}.

(** The response of [axios.post]; [resp_data] is the parsed body. *)
Record AxiosResponse : Type := {
  resp_status : Z;
  resp_data : JsValue
}.

(** ** Capabilities *)

(** The external calls the program awaits. *)
Inductive Call : Type :=
| DateNow                                    (* new Date(), Date.now() *)
| MathRandom36                               (* Math.random().toString(36).substr(2, 9) *)
| DbAdd (p : Preview)                        (* db.previews.add(p) *)
| DbUpdate (id : string) (ch : Changes)      (* db.previews.update(id, ch) *)
| DbGet (id : string)                        (* db.previews.get(id) *)
| DbListByUser (user : string)               (* db.previews.where('userId').equals(user).reverse().sortBy('createdAt') *)
| QueueAdd (d : PreviewJobData) (opt_jobId : string) (opt_timeout : Z)
                                             (* previewQueue.add(d, { jobId, timeout }) *)
| QueueGetJob (id : string)                  (* previewQueue.getJob(id) *)
| JobRemove (id : string)                    (* job.remove() *)
| QueueGetJobCounts                          (* previewQueue.getJobCounts() *)
| QueueIsPaused                              (* previewQueue.isPaused() *)
| FsCopy (src dst : string)                  (* fs.copy(src, dst) *)
| FsRemove (path : string)                   (* fs.remove(path) *)
| Sleep (ms : Z)                             (* new Promise(resolve => setTimeout(resolve, ms)) *)
| DeployToNetlify (appPath : string)         (* deployToNetlify(appPath) of orchestrator-api *)
| EnvGet (name : string)                     (* process.env[name] *)
| AxiosPost (url : string) (body : JsValue) (headers : list (string * string)).

(** The type of what each call resolves to. *)
Definition Resp (c : Call) : Type :=
  match c with
  | DateNow => Z
  | MathRandom36 => string
  | DbAdd _ => string
  | DbUpdate _ _ => nat
  | DbGet _ => option Preview
  | DbListByUser _ => list Preview
  | QueueAdd _ _ _ => QueueEntry
  | QueueGetJob _ => option QueueEntry
  | JobRemove _ => unit
  | QueueGetJobCounts => JobCounts
  | QueueIsPaused => bool
  | FsCopy _ _ => unit
  | FsRemove _ => unit
  | Sleep _ => unit
  | DeployToNetlify _ => option string
  | EnvGet _ => option string
  | AxiosPost _ _ _ => AxiosResponse
  end.

(** ** Asynchronous programs *)

Inductive Prog (R : Type) : Type :=
| Ret (r : R)
| Throw (e : JsError)
| Await (c : Call) (k : Outcome (Resp c) -> Prog R).
Arguments Ret {R} r.
Arguments Throw {R} e.
Arguments Await {R} c k.

Fixpoint bind {A B : Type} (p : Prog A) (f : A -> Prog B) : Prog B :=
  match p with
  | Ret a => f a
  | Throw e => Throw e
  | Await c k => Await c (fun o => bind (k o) f)
  end.

(** [try { p } catch (e) { handler e }] *)
Fixpoint try_catch {A : Type} (p : Prog A) (handler : JsError -> Prog A) : Prog A :=
  match p with
  | Ret a => Ret a
  | Throw e => handler e
  | Await c k => Await c (fun o => try_catch (k o) handler)
  end.

(** [await c]: a rejected promise throws at the await. *)
Definition await (c : Call) : Prog (Resp c) :=
  Await c (fun o => match o with Ok x => Ret x | Err e => Throw e end).

(** [await c.catch(() => {})]: the outcome is dropped. *)
Definition await_catch_ignore (c : Call) : Prog unit :=
  Await c (fun _ => Ret tt).

Declare Scope prog_scope.
Delimit Scope prog_scope with prog.
Notation "x <- p ;; q" := (bind p (fun x => q))
  (at level 100, p at next level, right associativity) : prog_scope.
Notation "p ;;; q" := (bind p (fun _ => q))
  (at level 100, right associativity) : prog_scope.
Local Open Scope prog_scope.

(** Running a program against a handler of the calls. *)
Section Run.
Context {W : Type}.
Variable h : forall c : Call, W -> W * Outcome (Resp c).

Fixpoint run {R : Type} (p : Prog R) (w : W) : W * Outcome R :=
  match p with
  | Ret r => (w, Ok r)
  | Throw e => (w, Err e)
  | Await c k => let '(w', o) := h c w in run (k o) w'
  end.

(** The calls made, in order. *)
Fixpoint trace {R : Type} (p : Prog R) (w : W) : list Call :=
  match p with
  | Ret _ | Throw _ => []
  | Await c k => let '(w', o) := h c w in c :: trace (k o) w'
  end.

(** One turn of the event loop: the program advances to its next await. *)
Definition step {R : Type} (p : Prog R) (w : W) : Prog R * W :=
  match p with
  | Await c k => let '(w', o) := h c w in (k o, w')
  | _ => (p, w)
  end.

Definition finished {R : Type} (p : Prog R) : option (Outcome R) :=
  match p with
  | Ret r => Some (Ok r)
  | Throw e => Some (Err e)
  | Await _ _ => None
  end.
End Run.

(** ** services/generator.ts *)

(** [{ status: s, updatedAt: new Date() }] *)
Definition status_only (s : string) (t : Z) : Changes :=
  {| ch_status := s; ch_liveUrl := None; ch_error := None; ch_updatedAt := Some t |}.

Definition maxAttempts : nat := 3.

(** [path.join(__dirname, '../../../preview-template')] *)
Definition templatePath : string := "preview-template".

(** The [while (attempts < maxAttempts)] loop of [generateAppCode]; [fuel]
    bounds the iterations, and [maxAttempts] of it are always enough since
    every iteration that does not leave the loop increments [attempts]. *)
Fixpoint copy_template (fuel attempts : nat) (outputPath : string) : Prog unit :=
  match fuel with
  | O => Ret tt
  | S fuel' =>
      if (attempts <? maxAttempts)%nat then
        Await (FsCopy templatePath outputPath) (fun o =>
          match o with
          | Ok _ => Ret tt                                         (* break *)
          | Err copyError =>
              let attempts := S attempts in
              if (attempts =? maxAttempts)%nat then
                Throw (Error ("Failed to copy template after " ++ pretty maxAttempts
                              ++ " attempts: " ++ error_to_string copyError))
              else
                await (Sleep (1000 * Z.of_nat attempts)) ;;;
                copy_template fuel' attempts outputPath
          end)
      else Ret tt
  end.

Definition generateAppCode (prompt : JsValue) : Prog string :=
  now <- await DateNow ;;
  r <- await MathRandom36 ;;
  let outputPath := "/tmp/preview_" ++ pretty now ++ "_" ++ r in
  copy_template maxAttempts 0 outputPath ;;;
  Ret outputPath.

(** The [catch] block of [processPreviewJob]; [appPath] is the value the
    variable holds when the error is caught. *)
Definition job_catch {A : Type} (jobId : string) (appPath : string) (err : JsError) : Prog A :=
  (if String.eqb appPath "" then Ret tt else await_catch_ignore (FsRemove appPath)) ;;;
  t <- await DateNow ;;
  await (DbUpdate jobId {| ch_status := "failed";
                           ch_liveUrl := None;
                           ch_error := Some (message_or_unknown err);
                           ch_updatedAt := Some t |}) ;;;
  Throw err.

(** The part of the [try] block that runs while [appPath] is still ['']. *)
Definition job_generate (d : PreviewJobData) : Prog string :=
  t <- await DateNow ;;
  await (DbUpdate (jobId d) (status_only "building" t)) ;;;
  generateAppCode (job_prompt d).

(** [!liveUrl] for what [deployToNetlify] resolved to. *)
Definition no_url (liveUrl : option string) : bool :=
  match liveUrl with
  | None => true
  | Some u => String.eqb u ""
  end.

(** The final write of the [try] block and the cleanup after it. *)
Definition job_finish (d : PreviewJobData) (appPath liveUrl : string) : Prog unit :=
  t <- await DateNow ;;
  await (DbUpdate (jobId d) {| ch_status := "live";
                               ch_liveUrl := Some liveUrl;
                               ch_error := None;
                               ch_updatedAt := Some t |}) ;;;
  await_catch_ignore (FsRemove appPath).

(** The part of the [try] block that runs once [appPath] is assigned. *)
Definition job_deploy (d : PreviewJobData) (appPath : string) : Prog unit :=
  t <- await DateNow ;;
  await (DbUpdate (jobId d) (status_only "generating" t)) ;;;
  liveUrl <- await (DeployToNetlify appPath) ;;
  if no_url liveUrl then Throw (Error "Failed to get deployment URL from Netlify")
  else job_finish d appPath (default "" liveUrl).

(** [processPreviewJob]: one [try] block whose [catch] reads the mutable
    [appPath]; the block is split at the assignment of [appPath], each half
    with the [catch] block at the value [appPath] has there.  The [catch]
    block ends in [throw error], so an error of the first half never
    reaches the second. *)
Definition processPreviewJob (d : PreviewJobData) : Prog unit :=
  appPath <- try_catch (job_generate d) (job_catch (jobId d) "") ;;
  try_catch (job_deploy d appPath) (job_catch (jobId d) appPath).

(** ** services/queue.ts *)

Record Backoff : Type := { backoff_type : string; backoff_delay : Z }.

Record JobOptions : Type := {
  removeOnComplete : bool;
  removeOnFail : bool;
  attempts : nat;
  backoff : Backoff
}.

(** [redisConfig.defaultJobOptions] *)
Definition defaultJobOptions : JobOptions :=
  {| removeOnComplete := true;
     removeOnFail := false;
     attempts := 3;
     backoff := {| backoff_type := "exponential"; backoff_delay := 2000 |} |}.

(** The processor given to [previewQueue.process(2, ...)]. *)
Definition processor (d : PreviewJobData) : Prog unit :=
  try_catch (processPreviewJob d) (fun err => Throw err).

(** ** The world the program runs in *)

(** The PreviewStore, the JobQueue and the scripted answers of the other
    capabilities: the clock, the random suffixes, and the outcomes of the
    successive [fs.copy], [deployToNetlify] and [axios.post] calls. *)
Record World : Type := {
  previews : gmap string Preview;
  jobs : gmap string QueueEntry;
  paused : bool;
  now : Z;
  random : list string;
  copies : list (Outcome unit);
  deploys : list (Outcome (option string));
  environ : gmap string string;
  posts : list (Outcome AxiosResponse)
}.

Definition set_previews (f : gmap string Preview -> gmap string Preview) (w : World) : World :=
  {| previews := f (previews w); jobs := jobs w; paused := paused w; now := now w;
     random := random w; copies := copies w; deploys := deploys w;
     environ := environ w; posts := posts w |}.

Definition set_jobs (f : gmap string QueueEntry -> gmap string QueueEntry) (w : World) : World :=
  {| previews := previews w; jobs := f (jobs w); paused := paused w; now := now w;
     random := random w; copies := copies w; deploys := deploys w;
     environ := environ w; posts := posts w |}.

Definition set_now (t : Z) (w : World) : World :=
  {| previews := previews w; jobs := jobs w; paused := paused w; now := t;
     random := random w; copies := copies w; deploys := deploys w;
     environ := environ w; posts := posts w |}.

Definition set_random (l : list string) (w : World) : World :=
  {| previews := previews w; jobs := jobs w; paused := paused w; now := now w;
     random := l; copies := copies w; deploys := deploys w;
     environ := environ w; posts := posts w |}.

Definition set_copies (l : list (Outcome unit)) (w : World) : World :=
  {| previews := previews w; jobs := jobs w; paused := paused w; now := now w;
     random := random w; copies := l; deploys := deploys w;
     environ := environ w; posts := posts w |}.

Definition set_deploys (l : list (Outcome (option string))) (w : World) : World :=
  {| previews := previews w; jobs := jobs w; paused := paused w; now := now w;
     random := random w; copies := copies w; deploys := l;
     environ := environ w; posts := posts w |}.

Definition set_posts (l : list (Outcome AxiosResponse)) (w : World) : World :=
  {| previews := previews w; jobs := jobs w; paused := paused w; now := now w;
     random := random w; copies := copies w; deploys := deploys w;
     environ := environ w; posts := l |}.

(** Modelled from the spec: the PreviewStore, whose module [../db] is not
    part of the sources.  It "supports insert, point update by id, point
    read by id, and list-by-owner ordered by creation time descending", and
    "must support atomic single-record updates".  An insert of a key that
    is taken is refused; an update of a key that is absent changes nothing
    and reports zero rows. *)
Definition db_add (p : Preview) (w : World) : World * Outcome string :=
  match previews w !! pid p with
  | Some _ => (w, Err (Error "Key already exists in the object store."))
  | None => (set_previews (insert (pid p) p) w, Ok (pid p))
  end.

(** Modelled from the spec: point update by id of the PreviewStore, one
    atomic update of the row; the number of rows changed is returned. *)
Definition db_update (id : string) (ch : Changes) (w : World) : World * Outcome nat :=
  match previews w !! id with
  | Some p => (set_previews (insert id (apply_changes ch p)) w, Ok 1%nat)
  | None => (w, Ok 0%nat)
  end.

(** Modelled from the spec: point read by id of the PreviewStore. *)
Definition db_get (id : string) (w : World) : World * Outcome (option Preview) :=
  (w, Ok (previews w !! id)).

(** [.where('userId').equals(user)] *)
Definition owned_by (user : string) (p : Preview) : bool :=
  match userId p with
  | VStr s => String.eqb s user
  | _ => false
  end.

(** The order [.reverse().sortBy('createdAt')] sorts into: newest first. *)
Definition newer_first (a b : Preview) : Prop := createdAt b <= createdAt a.

#[export] Instance newer_first_dec : RelDecision newer_first.
Proof. intros a b. unfold newer_first. apply _. Defined.

(** Modelled from the spec: list-by-owner of the PreviewStore, "ordered by
    creation time descending": the rows of the owner, taken in reverse
    scan order and sorted on [createdAt], newest first. *)
Definition list_by_user (user : string) (m : gmap string Preview) : list Preview :=
  merge_sort newer_first (rev (List.filter (owned_by user) (map_to_list m).*2)).

Definition db_list_by_user (user : string) (w : World) : World * Outcome (list Preview) :=
  (w, Ok (list_by_user user (previews w))).

(** Modelled from the spec: [counts()] of the JobQueue, the number of
    entries in each state. *)
Definition count_state (s : JobState) (m : gmap string QueueEntry) : Z :=
  Z.of_nat (length (List.filter (fun j => bool_decide (state j = s)) (map_to_list m).*2)).

Definition job_counts (m : gmap string QueueEntry) : JobCounts :=
  {| waiting := count_state Waiting m;
     active := count_state Active m;
     completed := count_state Completed m;
     failed := count_state Failed m;
     delayed := count_state Delayed m |}.

(** Modelled from the spec: the JobQueue (the Bull library, not part of the
    sources).  "[enqueue] with a [jobId] already present and not yet
    completed is a no-op"; "cancellation removes a waiting entry outright",
    and "cancellation of an active entry is not preemptive": the entry goes,
    the run of the worker is not interrupted. *)
Definition queue_add (d : PreviewJobData) (id : string) (tmo : Z) (w : World)
  : World * Outcome QueueEntry :=
  match jobs w !! id with
  | Some j => (w, Ok j)
  | None =>
      let j := {| data := d; state := Waiting; attemptsMade := 0; timeout := tmo; delay := 0 |} in
      (set_jobs (insert id j) w, Ok j)
  end.

(** Modelled from the spec: the entry of the JobQueue for a job id, if the
    queue holds one. *)
Definition queue_get_job (id : string) (w : World) : World * Outcome (option QueueEntry) :=
  (w, Ok (jobs w !! id)).

(** Modelled from the spec: [cancel] of the JobQueue, which removes the
    entry. *)
Definition job_remove (id : string) (w : World) : World * Outcome unit :=
  (set_jobs (delete id) w, Ok tt).

(** The scripted capabilities: each call takes the next outcome of its
    script; a script that has run out answers with a failure (or, for the
    random suffix, with a fixed one). *)
Definition math_random (w : World) : World * Outcome string :=
  match random w with
  | [] => (w, Ok "000000000")
  | r :: l => (set_random l w, Ok r)
  end.

Definition fs_copy (w : World) : World * Outcome unit :=
  match copies w with
  | [] => (w, Err (Error "ENOENT: no such file or directory"))
  | o :: l => (set_copies l w, o)
  end.

Definition deploy_to_netlify (w : World) : World * Outcome (option string) :=
  match deploys w with
  | [] => (w, Err (Error "Netlify API error: unavailable"))
  | o :: l => (set_deploys l w, o)
  end.

Definition axios_post (w : World) : World * Outcome AxiosResponse :=
  match posts w with
  | [] => (w, Err (AxiosError "Network Error" None))
  | o :: l => (set_posts l w, o)
  end.

Definition handle (c : Call) : World -> World * Outcome (Resp c) :=
  match c return World -> World * Outcome (Resp c) with
  | DateNow => fun w => (w, Ok (now w))
  | MathRandom36 => math_random
  | DbAdd p => db_add p
  | DbUpdate id ch => db_update id ch
  | DbGet id => db_get id
  | DbListByUser user => db_list_by_user user
  | QueueAdd d id tmo => queue_add d id tmo
  | QueueGetJob id => queue_get_job id
  | JobRemove id => job_remove id
  | QueueGetJobCounts => fun w => (w, Ok (job_counts (jobs w)))
  | QueueIsPaused => fun w => (w, Ok (paused w))
  | FsCopy _ _ => fs_copy
  | FsRemove _ => fun w => (w, Ok tt)
  | Sleep ms => fun w => (set_now (now w + ms) w, Ok tt)
  | DeployToNetlify _ => deploy_to_netlify
  | EnvGet name => fun w => (w, Ok (environ w !! name))
  | AxiosPost _ _ _ => axios_post
  end.

(** A store with one job, for the examples. *)
Definition job1 : PreviewJobData :=
  {| jobId := "preview_1_abc"; job_prompt := VStr "todo app"; job_userId := VStr "u1" |}.

Definition row1 (st : string) : Preview :=
  {| pid := "preview_1_abc"; prompt := VStr "todo app"; userId := VStr "u1";
     status := st; liveUrl := None; error := None; createdAt := 1; updatedAt := Some 1 |}.

Definition entry1 (s : JobState) : QueueEntry :=
  {| data := job1; state := s; attemptsMade := 0; timeout := 120000; delay := 0 |}.

Definition world1 (st : string) (cs : list (Outcome unit))
    (ds : list (Outcome (option string))) : World :=
  {| previews := {[ "preview_1_abc" := row1 st ]};
     jobs := {[ "preview_1_abc" := entry1 Active ]};
     paused := false; now := 5; random := ["k3j9x0q2m"];
     copies := cs; deploys := ds; environ := ∅; posts := [] |}.

Definition status_of (id : string) (w : World) : option string :=
  status <$> previews w !! id.

(** Modelled from the spec: the retry policy of the JobQueue.  "On Pipeline
    failure, re-enqueue up to a fixed attempt cap with exponential backoff
    (base delay, doubling per attempt).  After the cap is exhausted, the
    entry is terminal-failed and retained; successful entries are not
    retained."  The options are those of the source. *)
Definition backoff_after (o : JobOptions) (made : nat) : Z :=
  backoff_delay (backoff o) * 2 ^ (Z.of_nat made - 1).

Definition with_state (s : JobState) (j : QueueEntry) : QueueEntry :=
  {| data := data j; state := s; attemptsMade := attemptsMade j;
     timeout := timeout j; delay := delay j |}.

Definition retried (made : nat) (d : Z) (j : QueueEntry) : QueueEntry :=
  {| data := data j; state := Delayed; attemptsMade := made;
     timeout := timeout j; delay := d |}.

Definition given_up (made : nat) (j : QueueEntry) : QueueEntry :=
  {| data := data j; state := Failed; attemptsMade := made;
     timeout := timeout j; delay := delay j |}.

(** What the queue did with one entry: the world it left, the number of
    times it ran the processor, the delays it waited between the runs, and
    the calls the runs made. *)
Record JobRun : Type := {
  world_after : World;
  attempts_run : nat;
  delays : list Z;
  calls : list Call;
  last_result : option (Outcome unit)
}.

(** Modelled from the spec: the worker loop of the JobQueue on the entry
    [id]: run the processor, and on a failure run it again after the
    backoff while the attempts made stay under the cap.  [fuel] bounds the
    runs; the cap of the options is what stops the loop. *)
Fixpoint work (o : JobOptions) (fuel : nat) (id : string) (w : World) : JobRun :=
  match fuel with
  | O => {| world_after := w; attempts_run := 0; delays := []; calls := [];
            last_result := None |}
  | S fuel' =>
      match jobs w !! id with
      | None => {| world_after := w; attempts_run := 0; delays := []; calls := [];
                   last_result := None |}
      | Some j =>
          let w0 := set_jobs (alter (with_state Active) id) w in
          let tr := trace handle (processor (data j)) w0 in
          let '(w1, r) := run handle (processor (data j)) w0 in
          match r with
          | Ok _ =>
              {| world_after :=
                   if removeOnComplete o then set_jobs (delete id) w1
                   else set_jobs (alter (with_state Completed) id) w1;
                 attempts_run := 1; delays := []; calls := tr; last_result := Some r |}
          | Err _ =>
              let made := S (attemptsMade j) in
              if (made <? attempts o)%nat then
                let d := backoff_after o made in
                let w2 := set_now (now w1 + d) (set_jobs (alter (retried made d) id) w1) in
                let rest := work o fuel' id w2 in
                {| world_after := world_after rest;
                   attempts_run := S (attempts_run rest);
                   delays := d :: delays rest;
                   calls := tr ++ calls rest;
                   last_result := last_result rest |}
              else
                {| world_after :=
                     if removeOnFail o then set_jobs (delete id) w1
                     else set_jobs (alter (given_up made) id) w1;
                   attempts_run := 1; delays := []; calls := tr; last_result := Some r |}
          end
      end
  end.

(** The statuses written to the PreviewStore, in the order of the writes. *)
Definition status_writes (tr : list Call) : list string :=
  omap (fun c => match c with
                 | DbUpdate _ ch => Some (ch_status ch)
                 | _ => None
                 end) tr.

(** ** The state machine of the spec *)

Definition rank (s : string) : nat :=
  if String.eqb s "building" then 0
  else if String.eqb s "generating" then 1
  else if String.eqb s "deploying" then 2
  else 3.                                        (* live, failed *)

Definition terminal (s : string) : bool :=
  String.eqb s "live" || String.eqb s "failed".

(** Forward progression of a sequence of statuses. *)
Fixpoint forward (l : list string) : bool :=
  match l with
  | a :: (b :: _) as l' => (rank a <=? rank b)%nat && forward l'
  | _ => true
  end.

(** No write after a terminal status sets a non-terminal one. *)
Fixpoint stays_terminal (l : list string) : bool :=
  match l with
  | [] => true
  | a :: l' => (if terminal a then forallb terminal l' else true) && stays_terminal l'
  end.

(** ** The HTTP handlers *)

Record Response : Type := { code : Z; body : JsValue }.

(** [res.json(b)] and [res.status(c).json(b)] *)
Definition json (b : JsValue) : Response := {| code := 200; body := b |}.
Definition status_json (c : Z) (b : JsValue) : Response := {| code := c; body := b |}.

Definition null_or_str (o : option string) : JsValue :=
  match o with Some s => VStr s | None => VNull end.

Definition null_or_num (o : option Z) : JsValue :=
  match o with Some n => VNum n | None => VNull end.

(** The own properties of a row, as [...preview] spreads them. *)
Definition preview_fields (p : Preview) : list (string * JsValue) :=
  [("id", VStr (pid p)); ("prompt", prompt p); ("userId", userId p);
   ("status", VStr (status p)); ("liveUrl", null_or_str (liveUrl p));
   ("error", null_or_str (error p)); ("createdAt", VDate (createdAt p));
   ("updatedAt", match updatedAt p with Some t => VDate t | None => VUndefined end)].

(** [const { prompt, userId } = req.body] throws on a body that is
    [undefined] or [null]. *)
Definition destructure_body (req_body : JsValue) : Prog (JsValue * JsValue) :=
  match req_body with
  | VUndefined | VNull =>
      Throw (Error "Cannot destructure property 'prompt' of 'req.body' as it is undefined.")
  | b => Ret (get_field "prompt" b, get_field "userId" b)
  end.

(** [`preview_${Date.now()}_${Math.random().toString(36).substr(2, 9)}`] *)
Definition new_job_id : Prog string :=
  t <- await DateNow ;;
  r <- await MathRandom36 ;;
  Ret ("preview_" ++ pretty t ++ "_" ++ r).

(** [queuePosition] of the status handlers: [null] or a number; a number is
    truthy when it is not zero. *)
Definition truthy_position (q : option Z) : bool :=
  match q with Some n => negb (n =? 0) | None => false end.

Definition cancel_changes (t : Z) : Changes :=
  {| ch_status := "failed"; ch_liveUrl := None;
     ch_error := Some "Cancelled by user"; ch_updatedAt := Some t |}.

(** The server of orchestrator-api (its index, the third file of
    services/queue.ts as the sources have it). *)
Module OrchestratorApi.

(** [app.post('/api/preview', ...)] *)
Definition post_preview (req_body : JsValue) : Prog Response :=
  try_catch
    (fields <- destructure_body req_body ;;
     let '(prompt, userId) := fields in
     if negb (truthy prompt) || negb (truthy userId) then
       Ret (status_json 400
              (VObj [("success", VBool false);
                     ("error", VStr "Missing required fields: prompt and userId")]))
     else
       jobId <- new_job_id ;;
       created <- await DateNow ;;
       updated <- await DateNow ;;
       await (DbAdd {| pid := jobId; prompt := prompt; userId := userId;
                       status := "building"; liveUrl := None; error := None;
                       createdAt := created; updatedAt := Some updated |}) ;;;
       await (QueueAdd {| jobId := jobId; job_prompt := prompt; job_userId := userId |}
                       jobId 120000) ;;;
       Ret (json (VObj [("success", VBool true);
                        ("message", VStr "Preview generation started in background");
                        ("jobId", VStr jobId);
                        ("statusUrl", VStr ("/api/preview/" ++ jobId ++ "/status"))])))
    (fun err =>
       Ret (status_json 500
              (VObj [("success", VBool false);
                     ("error", VStr "Failed to queue preview job");
                     ("details", VStr (message_or_unknown err))]))).

(** [app.get('/api/preview/:jobId/status', ...)] *)
Definition get_status (jobId : string) : Prog Response :=
  try_catch
    (preview <- await (DbGet jobId) ;;
     match preview with
     | None =>
         Ret (status_json 404
                (VObj [("success", VBool false); ("error", VStr "Preview not found")]))
     | Some preview =>
         job <- await (QueueGetJob jobId) ;;
         queuePosition <-
           match job with
           | Some _ =>
               jobCounts <- await QueueGetJobCounts ;;
               Ret (Some (waiting jobCounts + active jobCounts + 1))
           | None => Ret None
           end ;;
         Ret (json (VObj ([("success", VBool true)] ++ preview_fields preview ++
                [("queuePosition",
                  if truthy_position queuePosition && String.eqb (status preview) "building"
                  then null_or_num queuePosition else VNull);
                 ("estimatedTime",
                  if truthy_position queuePosition
                  then null_or_num ((fun q => q * 30) <$> queuePosition) else VNull)])))
     end)
    (fun _ =>
       Ret (status_json 500
              (VObj [("success", VBool false);
                     ("error", VStr "Failed to fetch preview status")]))).

(** [app.get('/api/previews/:userId', ...)] *)
Definition get_previews (userId : string) : Prog Response :=
  try_catch
    (previews <- await (DbListByUser userId) ;;
     Ret (json (VObj [("success", VBool true);
                      ("previews", VArr (map (fun p => VObj (preview_fields p)) previews))])))
    (fun _ =>
       Ret (status_json 500
              (VObj [("success", VBool false); ("error", VStr "Failed to fetch previews")]))).

(** [app.delete('/api/preview/:jobId', ...)] *)
Definition delete_preview (jobId : string) : Prog Response :=
  try_catch
    (job <- await (QueueGetJob jobId) ;;
     match job with
     | Some _ => await (JobRemove jobId)
     | None => Ret tt
     end ;;;
     t <- await DateNow ;;
     await (DbUpdate jobId (cancel_changes t)) ;;;
     Ret (json (VObj [("success", VBool true); ("message", VStr "Preview cancelled")])))
    (fun _ =>
       Ret (status_json 500
              (VObj [("success", VBool false); ("error", VStr "Failed to cancel preview")]))).

End OrchestratorApi.

(** The server of live-preview-engine/orchestrator-api (index.ts). *)
Module LivePreviewEngine.

(** [app.post('/api/preview', ...)] *)
Definition post_preview (req_body : JsValue) : Prog Response :=
  try_catch
    (fields <- destructure_body req_body ;;
     let '(prompt, userId) := fields in
     jobId <- new_job_id ;;
     created <- await DateNow ;;
     updated <- await DateNow ;;
     await (DbAdd {| pid := jobId; prompt := prompt;
                     userId := js_or userId (VStr "anonymous");
                     status := "building"; liveUrl := None; error := None;
                     createdAt := created; updatedAt := Some updated |}) ;;;
     await (QueueAdd {| jobId := jobId; job_prompt := prompt;
                        job_userId := js_or userId (VStr "anonymous") |}
                     jobId 120000) ;;;
     Ret (json (VObj [("success", VBool true);
                      ("previewId", VStr jobId);
                      ("message", VStr "Preview generation started in background");
                      ("statusUrl", VStr ("/api/preview/" ++ jobId))])))
    (fun err =>
       Ret (status_json 500
              (VObj [("success", VBool false);
                     ("error", VStr "Failed to start preview generation");
                     ("details", VStr (message_or_unknown err))]))).

(** [app.get('/api/preview/:id', ...)] *)
Definition get_preview (id : string) : Prog Response :=
  try_catch
    (preview <- await (DbGet id) ;;
     match preview with
     | None =>
         Ret (status_json 404
                (VObj [("success", VBool false); ("error", VStr "Preview not found")]))
     | Some preview =>
         job <- await (QueueGetJob id) ;;
         queuePosition <-
           match job with
           | Some _ =>
               jobCounts <- await QueueGetJobCounts ;;
               Ret (Some (waiting jobCounts + active jobCounts + 1))
           | None => Ret None
           end ;;
         Ret (json (VObj (preview_fields preview ++
                [("queuePosition",
                  if truthy_position queuePosition && String.eqb (status preview) "building"
                  then null_or_num queuePosition else VNull);
                 ("estimatedTime",
                  if truthy_position queuePosition
                  then null_or_num ((fun q => q * 30) <$> queuePosition) else VNull)])))
     end)
    (fun _ =>
       Ret (status_json 500
              (VObj [("success", VBool false);
                     ("error", VStr "Failed to fetch preview status")]))).

(** [app.get('/api/previews/:userId', ...)] *)
Definition get_previews (userId : string) : Prog Response :=
  try_catch
    (previews <- await (DbListByUser userId) ;;
     Ret (json (VObj [("success", VBool true);
                      ("previews", VArr (map (fun p => VObj (preview_fields p)) previews))])))
    (fun _ =>
       Ret (status_json 500
              (VObj [("success", VBool false); ("error", VStr "Failed to fetch previews")]))).

(** [app.delete('/api/preview/:jobId', ...)] *)
Definition delete_preview (jobId : string) : Prog Response :=
  try_catch
    (job <- await (QueueGetJob jobId) ;;
     match job with
     | Some _ => await (JobRemove jobId)
     | None => Ret tt
     end ;;;
     t <- await DateNow ;;
     await (DbUpdate jobId (cancel_changes t)) ;;;
     Ret (json (VObj [("success", VBool true); ("message", VStr "Preview cancelled")])))
    (fun _ =>
       Ret (status_json 500
              (VObj [("success", VBool false); ("error", VStr "Failed to cancel preview")]))).

End LivePreviewEngine.

(** ** services/netlify.ts of live-preview-engine *)
Module Netlify.

Definition NETLIFY_API : string := "https://api.netlify.com/api/v1".

(** [!token] *)
Definition no_token (token : option string) : bool :=
  match token with
  | None => true
  | Some t => String.eqb t ""
  end.

(** [siteResponse.data.id]: reading a property of [null] or [undefined]
    throws a TypeError. *)
Definition read_id (data : JsValue) : Prog JsValue :=
  match data with
  | VUndefined => Throw (Error "Cannot read properties of undefined (reading 'id')")
  | VNull => Throw (Error "Cannot read properties of null (reading 'id')")
  | d => Ret (get_field "id" d)
  end.

Definition site_request (token siteName : string) : Call :=
  AxiosPost (NETLIFY_API ++ "/sites")
            (VObj [("name", VStr siteName)])
            [("Authorization", "Bearer " ++ token); ("Content-Type", "application/json")].

Definition deployToNetlify (appFolderPath siteName : string) : Prog string :=
  token <- await (EnvGet "NETLIFY_TOKEN") ;;
  if no_token token then
    Throw (Error "NETLIFY_TOKEN environment variable is not set")
  else
    try_catch
      (siteResponse <- await (site_request (default "" token) siteName) ;;
       siteId <- read_id (resp_data siteResponse) ;;
       let deployUrl := "https://" ++ siteName ++ ".netlify.app" in
       Ret deployUrl)
      (fun err =>
         match err with
         | AxiosError message response_message =>
             Throw (Error ("Netlify API error: " ++ default message response_message))
         | _ => Throw err
         end).

End Netlify.


(** ** The first server of services/queue.ts: the pipeline run inline *)
Module Legacy.

(** [error instanceof Error ? error.message : String(error)] *)
Definition error_message (e : JsError) : string :=
  match e with
  | Error m | AxiosError m _ => m
  | Thrown text => text
  end.

(** [{ status: s }] *)
Definition status_change (s : string) : Changes :=
  {| ch_status := s; ch_liveUrl := None; ch_error := None; ch_updatedAt := None |}.

Section Imports.

(** What the server imports from ./services/generator and
    ./services/netlify.  services/generator.ts declares [generateAppCode]
    without exporting it, and the [deployToNetlify] of orchestrator-api
    takes one argument where this server passes two: what the two names
    are bound to is left open, any asynchronous function. *)
Variable generateAppCode : JsValue -> Prog string.
Variable deployToNetlify : string -> string -> Prog string.

(** [{ status: 'failed', error: errorMessage, updatedAt: new Date() }] *)
Definition failed_changes (errorMessage : string) (t : Z) : Changes :=
  {| ch_status := "failed"; ch_liveUrl := None; ch_error := Some errorMessage;
     ch_updatedAt := Some t |}.

(** [{ status: 'live', liveUrl: liveUrl, updatedAt: new Date() }] *)
Definition live_changes (liveUrl : string) (t : Z) : Changes :=
  {| ch_status := "live"; ch_liveUrl := Some liveUrl; ch_error := None;
     ch_updatedAt := Some t |}.

(** The [catch] block of [processPreview]. *)
Definition record_failure (previewId : string) (err : JsError) : Prog unit :=
  let errorMessage := error_message err in
  t <- await DateNow ;;
  await (DbUpdate previewId (failed_changes errorMessage t)) ;;;
  Ret tt.

(** [processPreview] *)
Definition processPreview (previewId : string) (prompt : JsValue) : Prog unit :=
  try_catch
    (await (DbUpdate previewId (status_change "generating_code")) ;;;
     appCode <- generateAppCode prompt ;;
     await (DbUpdate previewId (status_change "deploying")) ;;;
     liveUrl <- deployToNetlify appCode previewId ;;
     t <- await DateNow ;;
     await (DbUpdate previewId (live_changes liveUrl t)) ;;;
     Ret tt)
    (record_failure previewId).

(** [app.post('/api/preview', ...)]: the handler resolves to its response
    and to the task it left running, [processPreview(...).catch(console.error)],
    if it started one. *)
Definition post_preview (req_body : JsValue) : Prog (Response * option (Prog unit)) :=
  try_catch
    (fields <- destructure_body req_body ;;
     let '(prompt, userId) := fields in
     previewId <- new_job_id ;;
     created <- await DateNow ;;
     await (DbAdd {| pid := previewId; prompt := prompt; userId := userId;
                     status := "initializing"; liveUrl := None; error := None;
                     createdAt := created; updatedAt := None |}) ;;;
     Ret (json (VObj [("previewId", VStr previewId); ("status", VStr "building")]),
          Some (try_catch (processPreview previewId prompt) (fun _ => Ret tt))))
    (fun err =>
       Ret (status_json 500
              (VObj [("success", VBool false);
                     ("error", VStr "Failed to start preview generation");
                     ("details", VStr (message_or_unknown err))]),
            None)).

End Imports.

(** The own properties of a row of this server, which writes the keys
    [error] and [updatedAt] only when it sets them. *)
Definition row_fields (p : Preview) : list (string * JsValue) :=
  ([("id", VStr (pid p)); ("prompt", prompt p); ("userId", userId p);
    ("status", VStr (status p)); ("liveUrl", null_or_str (liveUrl p));
    ("createdAt", VDate (createdAt p))]
   ++ match error p with Some m => [("error", VStr m)] | None => [] end
   ++ match updatedAt p with Some t => [("updatedAt", VDate t)] | None => [] end)%list.

(** [app.get('/api/preview/:id', ...)]: no [try] around the read. *)
Definition get_preview (id : string) : Prog Response :=
  preview <- await (DbGet id) ;;
  match preview with
  | None => Ret (status_json 404 (VObj [("error", VStr "Preview not found")]))
  | Some preview => Ret (json (VObj (row_fields preview)))
  end.

End Legacy.

(** ** Observing a run *)

(** What a run of the pipeline does that the state machine of the spec
    speaks of: the statuses it writes, the work of the CodeGenerator (the
    copy of the template) and the call of the DeploymentTarget. *)
Inductive Milestone : Type :=
| Wrote (s : string)
| Generate
| Deploy.

#[export] Instance Milestone_eq_dec : EqDecision Milestone.
Proof. solve_decision. Defined.

Definition milestones (tr : list Call) : list Milestone :=
  omap (fun c => match c with
                 | DbUpdate _ ch => Some (Wrote (ch_status ch))
                 | FsCopy _ _ => Some Generate
                 | DeployToNetlify _ => Some Deploy
                 | _ => None
                 end) tr.

(** Every occurrence of [m] in [l] has an [a] before it. *)
Fixpoint comes_before (a m : Milestone) (l : list Milestone) : bool :=
  match l with
  | [] => true
  | x :: l' =>
      if bool_decide (x = a) then true
      else negb (bool_decide (x = m)) && comes_before a m l'
  end.

(** The status [s] is not written. *)
Definition never_written (s : string) (l : list Milestone) : bool :=
  forallb (fun m => negb (bool_decide (m = Wrote s))) l.

(** What a run shows of the deployment and of the PreviewStore: what each
    call of the DeploymentTarget came back with, and each write to a row. *)
Inductive Seen : Type :=
| Deployed (result : Outcome (option string))
| Written (id : string) (ch : Changes).

Definition seen (c : Call) : Outcome (Resp c) -> option Seen :=
  match c with
  | DeployToNetlify _ => fun o => Some (Deployed o)
  | DbUpdate id ch => fun _ => Some (Written id ch)
  | _ => fun _ => None
  end.

Section History.
Context {W : Type}.
Variable h : forall c : Call, W -> W * Outcome (Resp c).

(** The deployments, with their outcomes, and the writes of a run, in
    order. *)
Fixpoint history {R : Type} (p : Prog R) (w : W) : list Seen :=
  match p with
  | Ret _ | Throw _ => []
  | Await c k =>
      let '(w', o) := h c w in
      match seen c o with
      | Some s => s :: history (k o) w'
      | None => history (k o) w'
      end
  end.
End History.

(** Every write of [live] follows a deployment; the last deployment before
    it ([last], while going through the list) resolved to a URL that is not
    empty, and that URL is the one written. *)
Fixpoint live_after_deploy (last : option (Outcome (option string))) (l : list Seen) : Prop :=
  match l with
  | [] => True
  | Deployed o :: l' => live_after_deploy (Some o) l'
  | Written _ ch :: l' =>
      (ch_status ch = "live" ->
       exists url : string,
         last = Some (Ok (Some url)) /\ url <> "" /\ ch_liveUrl ch = Some url) /\
      live_after_deploy last l'
  end.

(** The worker and a request handler taking turns on the event loop: at
    each turn of the schedule the worker ([true]) or the handler ([false])
    advances to its next await. *)
Fixpoint interleave {A B : Type} (schedule : list bool) (worker : Prog A) (handler : Prog B)
    (w : World) : Prog A * Prog B * World :=
  match schedule with
  | [] => (worker, handler, w)
  | true :: s =>
      let '(worker', w') := step handle worker w in interleave s worker' handler w'
  | false :: s =>
      let '(handler', w') := step handle handler w in interleave s worker handler' w'
  end.

(** What a run resolved to, if it did not throw. *)
Definition resolved {R : Type} (out : World * Outcome R) : option R :=
  match out.2 with
  | Ok r => Some r
  | Err _ => None
  end.

(** A field of the body of the response a handler resolved to. *)
Definition answered (k : string) (out : World * Outcome Response) : option JsValue :=
  get_field k <$> (body <$> resolved out).

(** The call a suspended program waits to make. *)
Definition next_call {R : Type} (p : Prog R) : option Call :=
  match p with
  | Await c _ => Some c
  | _ => None
  end.

(** [n] turns of the event loop given to one program. *)
Fixpoint steps {R : Type} (n : nat) (p : Prog R) (w : World) : Prog R * World :=
  match n with
  | O => (p, w)
  | S n' => let '(p', w') := step handle p w in steps n' p' w'
  end.

(** An empty installation, for the examples. *)
Definition empty_world : World :=
  {| previews := ∅; jobs := ∅; paused := false; now := 1700000000000;
     random := ["k3j9x0q2m"; "a1b2c3d4e"]; copies := []; deploys := [];
     environ := ∅; posts := [] |}.

(** Every call a program can make, on every path, satisfies [P]. *)
Fixpoint all_calls {R : Type} (P : Call -> Prop) (p : Prog R) : Prop :=
  match p with
  | Await c k => P c /\ forall o, all_calls P (k o)
  | _ => True
  end.

(** The calls of the worker on the job [id]: it writes to the row [id]
    only, and never touches the queue. *)
Definition worker_call (id : string) (c : Call) : Prop :=
  match c with
  | DateNow | MathRandom36 | FsCopy _ _ | FsRemove _ | Sleep _ | DeployToNetlify _ => True
  | DbUpdate id' _ => id' = id
  | _ => False
  end.

(** The calls of [generateAppCode]: the clock, the random suffix, the copy
    of the template and the waits between its attempts. *)
Definition generator_call (c : Call) : Prop :=
  match c with
  | DateNow | MathRandom36 | FsCopy _ _ | Sleep _ => True
  | _ => False
  end.

(** A write of status [live] carries a URL that is not empty. *)
Definition live_write_has_url (c : Call) : Prop :=
  match c with
  | DbUpdate _ ch =>
      ch_status ch = "live" -> exists u : string, ch_liveUrl ch = Some u /\ u <> ""
  | _ => True
  end.

(** A submission that lacks a required field: [!prompt || !userId]. *)
Definition missing_field (req_body : JsValue) : bool :=
  negb (truthy (get_field "prompt" req_body)) || negb (truthy (get_field "userId" req_body)).

Definition not_found : Response :=
  status_json 404 (VObj [("success", VBool false); ("error", VStr "Preview not found")]).

Definition cancelled : Response :=
  json (VObj [("success", VBool true); ("message", VStr "Preview cancelled")]).

(** A world where the Netlify token is set and the API creates the site. *)
Definition netlify_world : World :=
  {| previews := ∅; jobs := ∅; paused := false; now := 1700000000000;
     random := []; copies := []; deploys := [];
     environ := {[ "NETLIFY_TOKEN" := "nfp_token" ]};
     posts := [Ok {| resp_status := 201;
                     resp_data := VObj [("id", VStr "3970e0fe"); ("name", VStr "preview-1")] |}] |}.

(** ** Observing the generator *)

(** The copies of the template a run asked for, as (source, target), and
    the waits it made, in order. *)
Definition copy_calls (tr : list Call) : list (string * string) :=
  omap (fun c => match c with FsCopy src dst => Some (src, dst) | _ => None end) tr.


(** The directories a run removed. *)
Definition remove_calls (tr : list Call) : list string :=
  omap (fun c => match c with FsRemove path => Some path | _ => None end) tr.

(** The outcome the [i]-th next call of [fs.copy] will have in [w]. *)
Definition nth_copy (w : World) (i : nat) : Outcome unit :=
  match copies w !! i with
  | Some o => o
  | None => Err (Error "ENOENT: no such file or directory")
  end.

(** The path [generateAppCode] makes up in [w]. *)
Definition output_path (w : World) : string :=
  "/tmp/preview_" ++ pretty (now w) ++ "_" ++
  match random w with [] => "000000000" | r :: _ => r end.

(** ** Observing the handlers *)

(** The job id a submission gets in [w]. *)
Definition next_job_id (w : World) : string :=
  "preview_" ++ pretty (now w) ++ "_" ++
  match random w with [] => "000000000" | r :: _ => r end.

(** The row and the queue entry a submission of [prompt] by [userId]
    creates in [w]. *)
Definition submitted_row (w : World) (prompt userId : JsValue) : Preview :=
  {| pid := next_job_id w; prompt := prompt; userId := userId; status := "building";
     liveUrl := None; error := None; createdAt := now w; updatedAt := Some (now w) |}.

Definition submitted_entry (w : World) (prompt userId : JsValue) : QueueEntry :=
  {| data := {| jobId := next_job_id w; job_prompt := prompt; job_userId := userId |};
     state := Waiting; attemptsMade := 0; timeout := 120000; delay := 0 |}.

(** A row that is live, for the examples. *)
Definition live_row1 : Preview :=
  apply_changes {| ch_status := "live"; ch_liveUrl := Some "https://preview-1.netlify.app";
                   ch_error := None; ch_updatedAt := Some 9 |} (row1 "generating").

(** A handler run that leaves the world as it was and answers 200 or 404. *)
Definition reads_only (p : Prog Response) (w : World) : Prop :=
  (run handle p w).1 = w /\
  exists resp, (run handle p w).2 = Ok resp /\ (code resp = 200 \/ code resp = 404).

(** ** Observing the inline pipeline *)

(** The calls that leave the PreviewStore as it is. *)
Definition no_store_write (c : Call) : Prop :=
  match c with
  | DbAdd _ | DbUpdate _ _ => False
  | _ => True
  end.


(** An import that is bound to nothing, as [generateAppCode] is when it is
    imported from services/generator.ts, which does not export it: the call
    throws a TypeError. *)
Definition not_exported (name : string) : JsError := Error (name ++ " is not a function").

(** A PreviewStore that refuses every update, all else as in [handle]. *)
Definition closed_store (c : Call) : World -> World * Outcome (Resp c) :=
  match c return World -> World * Outcome (Resp c) with
  | DbUpdate _ _ => fun w => (w, Err (Error "DatabaseClosedError"))
  | c' => handle c'
  end.

(** What no update of the pipeline changes in a row. *)
Definition same_request (r r' : Preview) : Prop :=
  (pid r', prompt r', userId r', createdAt r') = (pid r, prompt r, userId r, createdAt r).

(** What the inline pipeline leaves in a row [r]: [live] with the URL the
    deployment resolved to, or [failed] with the message of the error that
    the generation or the deployment threw, and the URL the row had. *)
Definition inline_outcome (generateAppCode : JsValue -> Prog string)
    (deployToNetlify : string -> string -> Prog string)
    (previewId : string) (prompt : JsValue) (r r' : Preview) : Prop :=
  (status r' = "live" /\ error r' = error r /\
   exists (appCode url : string) (wa wb : World),
     run handle (deployToNetlify appCode previewId) wa = (wb, Ok url) /\
     liveUrl r' = Some url /\ updatedAt r' = Some (now wb)) \/
  (status r' = "failed" /\ liveUrl r' = liveUrl r /\
   exists (e : JsError) (wa wb : World),
     error r' = Some (Legacy.error_message e) /\ updatedAt r' = Some (now wb) /\
     (run handle (generateAppCode prompt) wa = (wb, Err e) \/
      exists appCode, run handle (deployToNetlify appCode previewId) wa = (wb, Err e))).

(** * Properties *)

(** ** Running programs *)

Section RunFacts.
Context {W : Type}.
Variable h : forall c : Call, W -> W * Outcome (Resp c).

Lemma run_bind {A B : Type} (p : Prog A) (f : A -> Prog B) (w : W) :
  run h (bind p f) w =
  match run h p w with
  | (w1, Ok a) => run h (f a) w1
  | (w1, Err e) => (w1, Err e)
  end.
Proof.
  revert w. induction p as [a|e|c k IH]; intros w; simpl; trivial.
  destruct (h c w) as [w' o]. apply IH.
Qed.

Lemma run_try_catch {A : Type} (p : Prog A) (handler : JsError -> Prog A) (w : W) :
  run h (try_catch p handler) w =
  match run h p w with
  | (w1, Ok a) => (w1, Ok a)
  | (w1, Err e) => run h (handler e) w1
  end.
Proof.
  revert w. induction p as [a|e|c k IH]; intros w; simpl; trivial.
  destruct (h c w) as [w' o]. apply IH.
Qed.


Lemma trace_try_catch {A : Type} (p : Prog A) (handler : JsError -> Prog A) (w : W) :
  trace h (try_catch p handler) w =
  (trace h p w ++
   match run h p w with
   | (_, Ok _) => []
   | (w1, Err e) => trace h (handler e) w1
   end)%list.
Proof.
  revert w. induction p as [a|e|c k IH]; intros w; simpl; trivial.
  destruct (h c w) as [w' o]. simpl. f_equal. apply IH.
Qed.

Lemma all_calls_bind {A B : Type} (P : Call -> Prop) (p : Prog A) (f : A -> Prog B) :
  all_calls P p -> (forall a, all_calls P (f a)) -> all_calls P (bind p f).
Proof.
  intros Hp Hf. induction p as [a|e|c k IH]; simpl in *; auto.
  destruct Hp as [Hc Hk]. split; auto.
Qed.

Lemma all_calls_try_catch {A : Type} (P : Call -> Prop) (p : Prog A)
    (handler : JsError -> Prog A) :
  all_calls P p -> (forall e, all_calls P (handler e)) -> all_calls P (try_catch p handler).
Proof.
  intros Hp Hf. induction p as [a|e|c k IH]; simpl in *; auto.
  destruct Hp as [Hc Hk]. split; auto.
Qed.

Lemma all_calls_await (P : Call -> Prop) (c : Call) : P c -> all_calls P (await c).
Proof. intros Hc. split; [exact Hc|]. intros [x|e]; exact I. Qed.

Lemma all_calls_await_catch_ignore (P : Call -> Prop) (c : Call) :
  P c -> all_calls P (await_catch_ignore c).
Proof. intros Hc. split; [exact Hc|]. intros o; exact I. Qed.

(** An invariant of the world that every call of a program keeps is kept
    by its runs. *)
Lemma run_invariant {R : Type} (P : Call -> Prop) (Inv : W -> Prop) (p : Prog R) :
  (forall c w, P c -> Inv w -> Inv (h c w).1) ->
  all_calls P p -> forall w, Inv w -> Inv (run h p w).1.
Proof.
  intros Hstep. induction p as [a|e|c k IH]; simpl; intros Hp w Hw; trivial.
  destruct Hp as [Hc Hk]. specialize (Hstep c w Hc Hw).
  destruct (h c w) as [w' o]. simpl in Hstep. apply IH; auto.
Qed.

Lemma trace_all_calls {R : Type} (P : Call -> Prop) (p : Prog R) :
  all_calls P p -> forall w, Forall P (trace h p w).
Proof.
  induction p as [a|e|c k IH]; simpl; intros Hp w; try constructor.
  destruct Hp as [Hc Hk]. destruct (h c w) as [w' o]. constructor; auto.
Qed.
End RunFacts.

(** ** The calls of the worker *)

Lemma all_calls_mono {R : Type} (P Q : Call -> Prop) (p : Prog R) :
  (forall c, P c -> Q c) -> all_calls P p -> all_calls Q p.
Proof.
  intros HPQ. induction p as [a|e|c k IH]; simpl; auto.
  intros [Hc Hk]. split; auto.
Qed.

Lemma copy_template_calls (fuel attempts : nat) (outputPath : string) :
  all_calls generator_call (copy_template fuel attempts outputPath).
Proof.
  revert attempts. induction fuel as [|fuel IH]; intros attempts; simpl; [exact I|].
  destruct (attempts <? maxAttempts)%nat; simpl; [|exact I].
  split; [exact I|]. intros [[]|e]; simpl; [exact I|].
  match goal with |- context [if ?b then _ else _] => destruct b end; simpl; [exact I|].
  split; [exact I|]. intros [[]|e']; simpl; [apply IH|exact I].
Qed.

Lemma generateAppCode_generator_calls (prompt : JsValue) :
  all_calls generator_call (generateAppCode prompt).
Proof.
  unfold generateAppCode.
  apply all_calls_bind; [apply all_calls_await; exact I|]. intros t.
  apply all_calls_bind; [apply all_calls_await; exact I|]. intros r.
  apply all_calls_bind; [apply copy_template_calls|]. intros _. exact I.
Qed.

Lemma generateAppCode_calls (id : string) (prompt : JsValue) :
  all_calls (worker_call id) (generateAppCode prompt).
Proof.
  apply (all_calls_mono generator_call); [|apply generateAppCode_generator_calls].
  intros []; simpl; tauto.
Qed.

Lemma job_catch_calls {A : Type} (id appPath : string) (err : JsError) :
  all_calls (worker_call id) (@job_catch A id appPath err).
Proof.
  unfold job_catch.
  apply all_calls_bind.
  - destruct (String.eqb appPath ""); [exact I|].
    apply all_calls_await_catch_ignore; exact I.
  - intros _. apply all_calls_bind; [apply all_calls_await; exact I|]. intros t.
    apply all_calls_bind; [apply all_calls_await; reflexivity|]. intros _. exact I.
Qed.

Lemma processPreviewJob_calls (d : PreviewJobData) :
  all_calls (worker_call (jobId d)) (processPreviewJob d).
Proof.
  unfold processPreviewJob.
  apply all_calls_bind.
  - apply all_calls_try_catch; [|intros e; apply job_catch_calls].
    unfold job_generate.
    apply all_calls_bind; [apply all_calls_await; exact I|]. intros t.
    apply all_calls_bind; [apply all_calls_await; reflexivity|]. intros _.
    apply generateAppCode_calls.
  - intros appPath.
    apply all_calls_try_catch; [|intros e; apply job_catch_calls].
    unfold job_deploy.
    apply all_calls_bind; [apply all_calls_await; exact I|]. intros t.
    apply all_calls_bind; [apply all_calls_await; reflexivity|]. intros _.
    apply all_calls_bind; [apply all_calls_await; exact I|]. intros liveUrl.
    destruct (no_url liveUrl); [exact I|].
    unfold job_finish.
    apply all_calls_bind; [apply all_calls_await; exact I|]. intros t'.
    apply all_calls_bind; [apply all_calls_await; reflexivity|]. intros _.
    apply all_calls_await_catch_ignore; exact I.
Qed.

Lemma processor_calls (d : PreviewJobData) :
  all_calls (worker_call (jobId d)) (processor d).
Proof.
  unfold processor. apply all_calls_try_catch; [apply processPreviewJob_calls|].
  intros e; exact I.
Qed.

(** The worker leaves the queue as it found it. *)
Lemma worker_call_jobs (id : string) (c : Call) (w : World) :
  worker_call id c -> jobs (handle c w).1 = jobs w.
Proof.
  destruct c; simpl; try contradiction; intros _; trivial.
  - unfold math_random. destruct (random w); reflexivity.
  - unfold db_update. destruct (previews w !! id0); reflexivity.
  - unfold fs_copy. destruct (copies w); reflexivity.
  - unfold deploy_to_netlify. destruct (deploys w); reflexivity.
Qed.

Lemma processor_jobs (d : PreviewJobData) (w : World) :
  jobs (run handle (processor d) w).1 = jobs w.
Proof.
  apply (run_invariant handle (worker_call (jobId d)) (fun w' => jobs w' = jobs w)).
  - intros c w' Hc Hw. rewrite (worker_call_jobs (jobId d)) by exact Hc. exact Hw.
  - apply processor_calls.
  - reflexivity.
Qed.

(** ** The retry policy of the queue *)

Ltac work_step Hj Hrun w1 r :=
  cbn [work]; rewrite Hj;
  match goal with
  | |- context [run handle (processor ?d) ?w0] =>
      destruct (run handle (processor d) w0) as [w1 r] eqn:Hrun
  end.

(** After a failed run that is retried, the entry (if still there) counts
    one attempt more. *)
Lemma retried_lookup (made : nat) (d : Z) (id : string) (m : gmap string QueueEntry)
    (j : QueueEntry) :
  alter (retried made d) id m !! id = Some j -> attemptsMade j = made.
Proof.
  rewrite lookup_alter_eq. destruct (m !! id); simpl; [|discriminate].
  intros [= <-]. reflexivity.
Qed.

Lemma work_no_entry (o : JobOptions) (fuel : nat) (id : string) (w : World) :
  jobs w !! id = None ->
  work o fuel id w =
  {| world_after := w; attempts_run := 0; delays := []; calls := []; last_result := None |}.
Proof. intros Hj. destruct fuel; cbn [work]; [|rewrite Hj]; reflexivity. Qed.

Lemma work_attempts_bound (fuel : nat) (id : string) (w : World) :
  (attempts_run (work defaultJobOptions fuel id w) <=
   match jobs w !! id with
   | Some j => if (attemptsMade j <? 3)%nat then 3 - attemptsMade j else 1
   | None => 0
   end)%nat.
Proof.
  revert w. induction fuel as [|fuel IH]; intros w.
  - cbn [work attempts_run]. lia.
  - destruct (jobs w !! id) as [j|] eqn:Hj.
    2:{ rewrite work_no_entry by exact Hj. cbn [attempts_run]. lia. }
    work_step Hj Hrun w1 r.
    destruct r as [u|e]; cbn [attempts_run].
    + destruct (Nat.ltb_spec (attemptsMade j) 3); lia.
    + change (attempts defaultJobOptions) with 3%nat.
      destruct (Nat.ltb_spec (S (attemptsMade j)) 3) as [Hlt|Hge]; cbn [attempts_run].
      * match goal with |- context [work _ fuel id ?w2] => specialize (IH w2); set (w' := w2) in * end.
        destruct (jobs w' !! id) as [j'|] eqn:Hj'.
        -- apply retried_lookup in Hj'. rewrite Hj' in IH.
           destruct (Nat.ltb_spec (S (attemptsMade j)) 3); [|lia].
           destruct (Nat.ltb_spec (attemptsMade j) 3); lia.
        -- destruct (Nat.ltb_spec (attemptsMade j) 3); lia.
      * destruct (Nat.ltb_spec (attemptsMade j) 3); lia.
Qed.

Lemma work_delays (fuel : nat) (id : string) :
  forall (w : World) (j : QueueEntry) (k : nat) (d : Z),
    jobs w !! id = Some j ->
    delays (work defaultJobOptions fuel id w) !! k = Some d ->
    d = 2000 * 2 ^ Z.of_nat (attemptsMade j + k).
Proof.
  induction fuel as [|fuel IH]; intros w j k d Hj Hd.
  - cbn [work delays] in Hd. discriminate.
  - revert Hd. work_step Hj Hrun w1 r.
    destruct r as [u|e]; cbn [delays]; [discriminate|].
    change (attempts defaultJobOptions) with 3%nat.
    destruct (Nat.ltb_spec (S (attemptsMade j)) 3) as [Hlt|Hge]; cbn [delays];
      [|discriminate].
    destruct k as [|k]; cbn [lookup list_lookup].
    + intros [= <-]. unfold backoff_after. cbn [backoff defaultJobOptions backoff_delay].
      f_equal. f_equal. lia.
    + match goal with |- context [work _ fuel id ?w2] => set (w' := w2) in * end.
      intros Hd. destruct (jobs w' !! id) as [j'|] eqn:Hj'.
      * rewrite (IH w' j' k d Hj' Hd). apply retried_lookup in Hj'. rewrite Hj'.
        f_equal. f_equal. lia.
      * rewrite work_no_entry in Hd by exact Hj'. discriminate.
Qed.

Lemma work_outcome (fuel : nat) (id : string) :
  forall (w : World) (j : QueueEntry),
    jobs w !! id = Some j -> (attemptsMade j < 3)%nat ->
    let r := work defaultJobOptions fuel id w in
    (forall e, last_result r = Some (Err e) ->
       (attempts_run r + attemptsMade j = 3)%nat /\
       state <$> jobs (world_after r) !! id = Some Failed) /\
    (forall u, last_result r = Some (Ok u) -> jobs (world_after r) !! id = None) /\
    ((3 - attemptsMade j <= fuel)%nat -> is_Some (last_result r)).
Proof.
  induction fuel as [|fuel IH]; intros w j Hj Hlt3.
  - cbn [work last_result]. repeat split; try discriminate. lia.
  - cbv zeta. work_step Hj Hrun w1 r.
    pose proof (processor_jobs (data j) (set_jobs (alter (with_state Active) id) w)) as Hfr.
    rewrite Hrun in Hfr. cbn [fst set_jobs jobs] in Hfr.
    destruct r as [u|e].
    + cbn [last_result world_after attempts_run removeOnComplete defaultJobOptions].
      repeat split; try discriminate; eauto.
      intros _ _. cbn [set_jobs jobs]. apply lookup_delete_eq.
    + change (attempts defaultJobOptions) with 3%nat.
      destruct (Nat.ltb_spec (S (attemptsMade j)) 3) as [Hlt|Hge].
      * cbn [last_result world_after attempts_run].
        match goal with |- context [work _ fuel id ?w2] => set (w' := w2) in * end.
        assert (Hj' : jobs w' !! id =
                      Some (retried (S (attemptsMade j)) (backoff_after defaultJobOptions (S (attemptsMade j)))
                              (with_state Active j))).
        { subst w'. cbn [set_now set_jobs jobs]. rewrite Hfr.
          rewrite !lookup_alter_eq, Hj. reflexivity. }
        destruct (IH w' _ Hj' Hlt) as (Herr & Hok & Hfuel).
        cbn [retried attemptsMade] in Herr, Hfuel.
        split; [|split].
        -- intros e' He'. destruct (Herr e' He') as [Hn Hst]. split; [lia|exact Hst].
        -- exact Hok.
        -- intros Hf. apply Hfuel. lia.
      * cbn [last_result world_after attempts_run removeOnFail defaultJobOptions].
        split; [|split]; try discriminate; eauto.
        intros e' _. split; [lia|].
        cbn [set_jobs jobs]. rewrite Hfr, !lookup_alter_eq, Hj. reflexivity.
Qed.

(** C6: the retry configuration of the queue gives every job at most 3
    attempts in all, with an exponential backoff that starts at 2 seconds;
    an entry whose attempts are exhausted is kept as failed
    ([removeOnFail] is false), an entry that completed is removed
    ([removeOnComplete] is true). *)
Theorem retry_configuration (fuel : nat) (id : string) (w : World) (j : QueueEntry) :
  jobs w !! id = Some j -> attemptsMade j = 0%nat ->
  let r := work defaultJobOptions fuel id w in
  attempts defaultJobOptions = 3%nat /\
  backoff defaultJobOptions = {| backoff_type := "exponential"; backoff_delay := 2000 |} /\
  removeOnFail defaultJobOptions = false /\
  removeOnComplete defaultJobOptions = true /\
  (attempts_run r <= 3)%nat /\
  (forall k d, delays r !! k = Some d -> d = 2000 * 2 ^ Z.of_nat k) /\
  (forall e, last_result r = Some (Err e) ->
     attempts_run r = 3%nat /\ state <$> jobs (world_after r) !! id = Some Failed) /\
  (forall u, last_result r = Some (Ok u) -> jobs (world_after r) !! id = None) /\
  ((3 <= fuel)%nat -> is_Some (last_result r)).
Proof.
  intros Hj H0 r. subst r.
  repeat (split; [reflexivity|]).
  split; [|split; [|split; [|split]]].
  - pose proof (work_attempts_bound fuel id w) as Hb. rewrite Hj, H0 in Hb. exact Hb.
  - intros k d Hd. rewrite (work_delays fuel id w j k d Hj Hd), H0. reflexivity.
  - intros e He.
    destruct (work_outcome fuel id w j Hj ltac:(lia)) as (Herr & _ & _).
    destruct (Herr e He) as [Hn Hst]. split; [lia|exact Hst].
  - apply (work_outcome fuel id w j Hj ltac:(lia)).
  - intros Hf. apply (work_outcome fuel id w j Hj ltac:(lia)). lia.
Qed.

(** A job whose template copy always fails: three runs, waits of 2 s and
    4 s, and the entry stays in the queue as failed. *)
Lemma retry_configuration_witness :
  let w := world1 "building" [] [] in
  let r := work defaultJobOptions 5 "preview_1_abc" w in
  (attempts_run r = 3%nat /\ delays r = [2000; 4000] /\
   state <$> jobs (world_after r) !! "preview_1_abc" = Some Failed) /\
  (attempts_run r <= 3)%nat.
Proof.
  split; [vm_compute; repeat split; reflexivity|].
  apply (retry_configuration 5 "preview_1_abc" (world1 "building" [] []) (entry1 Active));
    reflexivity.
Defined.

(** ** Submission *)

(** C7, as amended: on the orchestrator-api server, a POST /api/preview
    whose body lacks [prompt] or [userId] is answered with an error
    response before any state is created: the handler makes no call at all
    (no insert into the PreviewStore, no enqueue), whatever the capabilities
    are, and the world is left as it was. *)
Lemma validation_rejects {W : Type} (h : forall c : Call, W -> W * Outcome (Resp c))
    (req_body : JsValue) (w : W) :
  missing_field req_body = true ->
  exists resp : Response,
    run h (OrchestratorApi.post_preview req_body) w = (w, Ok resp) /\
    (code resp = 400 \/ code resp = 500) /\
    get_field "success" (body resp) = VBool false /\
    trace h (OrchestratorApi.post_preview req_body) w = [].
Proof.
  unfold missing_field, OrchestratorApi.post_preview. intros Hm.
  destruct req_body; cbn [destructure_body bind try_catch run trace];
    try rewrite Hm; cbn [destructure_body bind try_catch run trace];
    eexists; (split; [reflexivity|]); cbn; auto.
Qed.

Lemma validation_rejects_witness :
  exists resp : Response,
    run handle (OrchestratorApi.post_preview (VObj [("prompt", VStr "todo app")])) empty_world
      = (empty_world, Ok resp) /\
    (code resp = 400 \/ code resp = 500) /\
    get_field "success" (body resp) = VBool false /\
    trace handle (OrchestratorApi.post_preview (VObj [("prompt", VStr "todo app")])) empty_world
      = [].
Proof. apply (validation_rejects handle). reflexivity. Defined.

(** The server of live-preview-engine takes a submission without [userId]:
    the row is inserted for the owner ['anonymous'] and the job enqueued. *)
Lemma anonymous_submission_accepted :
  let req := VObj [("prompt", VStr "todo app")] in
  let out := run handle (LivePreviewEngine.post_preview req) empty_world in
  let id := "preview_1700000000000_k3j9x0q2m" in
  missing_field req = true /\
  code <$> resolved out = Some 200 /\
  answered "success" out = Some (VBool true) /\
  (userId <$> previews out.1 !! id) = Some (VStr "anonymous") /\
  (status <$> previews out.1 !! id) = Some "building" /\
  (state <$> jobs out.1 !! id) = Some Waiting.
Proof. vm_compute. repeat split; reflexivity. Qed.

(** ** Unknown job ids *)

(** The status endpoints answer 404 for an id the PreviewStore does not
    have. *)
Lemma status_unknown_not_found (w : World) (id : string) :
  previews w !! id = None ->
  run handle (OrchestratorApi.get_status id) w = (w, Ok not_found) /\
  run handle (LivePreviewEngine.get_preview id) w = (w, Ok not_found).
Proof.
  intros Hp. unfold OrchestratorApi.get_status, LivePreviewEngine.get_preview.
  cbn [await bind try_catch run handle db_get]. rewrite Hp. split; reflexivity.
Qed.

(** The cancel endpoints have two answers only, 200 and 500, whatever the
    capabilities do: a 404 is never sent. *)
Lemma cancel_never_not_found {W : Type} (h : forall c : Call, W -> W * Outcome (Resp c))
    (w : W) (id : string) :
  forall resp,
    ((run h (OrchestratorApi.delete_preview id) w).2 = Ok resp \/
     (run h (LivePreviewEngine.delete_preview id) w).2 = Ok resp) ->
    code resp = 200 \/ code resp = 500.
Proof.
  intros resp.
  unfold OrchestratorApi.delete_preview, LivePreviewEngine.delete_preview.
  cbn [await bind try_catch run].
  destruct (h (QueueGetJob id) w) as [w1 [[j|]|e]]; cbn [await bind try_catch run];
    repeat match goal with
           | |- context [h ?c ?w'] =>
               destruct (h c w') as [? [?|?]]; cbn [await bind try_catch run]
           end;
    cbn [snd]; intros [[= <-]|[= <-]]; cbn; auto.
Qed.

(** C8: for a job id with no record in the PreviewStore, the status
    endpoint answers 404; the cancel endpoint, which the claim has answer
    404 as well, answers 200 with [success: true] and the message
    'Preview cancelled', on both servers. *)
Theorem cancel_unknown_reports_success (w : World) (id : string) :
  previews w !! id = None ->
  (run handle (OrchestratorApi.get_status id) w).2 = Ok not_found /\
  (run handle (OrchestratorApi.delete_preview id) w).2 = Ok cancelled /\
  (run handle (LivePreviewEngine.delete_preview id) w).2 = Ok cancelled /\
  previews (run handle (OrchestratorApi.delete_preview id) w).1 !! id = None.
Proof.
  intros Hp. split.
  - destruct (status_unknown_not_found w id Hp) as [-> _]. reflexivity.
  - unfold OrchestratorApi.delete_preview, LivePreviewEngine.delete_preview.
    cbn [await bind try_catch run handle queue_get_job].
    destruct (jobs w !! id) as [j|];
      cbn [await bind try_catch run handle job_remove]; unfold db_update;
      cbn [previews set_jobs]; rewrite Hp;
      cbn [await bind try_catch run fst snd previews set_jobs];
      rewrite ?Hp; repeat split; reflexivity.
Qed.

Lemma cancel_unknown_reports_success_witness :
  (run handle (OrchestratorApi.get_status "preview_0_nope") empty_world).2 = Ok not_found /\
  (run handle (OrchestratorApi.delete_preview "preview_0_nope") empty_world).2 = Ok cancelled /\
  (run handle (LivePreviewEngine.delete_preview "preview_0_nope") empty_world).2 = Ok cancelled /\
  previews (run handle (OrchestratorApi.delete_preview "preview_0_nope") empty_world).1
    !! "preview_0_nope" = None.
Proof. apply (cancel_unknown_reports_success empty_world "preview_0_nope"). reflexivity. Defined.

(** ** Status polls *)

Lemma count_state_nonneg (s : JobState) (m : gmap string QueueEntry) : 0 <= count_state s m.
Proof. unfold count_state. lia. Qed.

Lemma position_truthy (m : gmap string QueueEntry) :
  truthy_position (Some (waiting (job_counts m) + active (job_counts m) + 1)) = true.
Proof.
  cbn [truthy_position job_counts waiting active].
  pose proof (count_state_nonneg Waiting m). pose proof (count_state_nonneg Active m).
  destruct (Z.eqb_spec (count_state Waiting m + count_state Active m + 1) 0); [lia|reflexivity].
Qed.

(** C4, as amended: for a status poll of an existing job, on both servers:
    while a QueueEntry for the id exists and the status is [building],
    queuePosition is the waiting count plus the active count plus 1 and
    estimatedTime is queuePosition times 30; when the status is anything
    but [building] (in particular once it is live or failed) queuePosition
    is null; and when no QueueEntry exists both are null. *)
Theorem status_poll_position (w : World) (id : string) (p : Preview) :
  previews w !! id = Some p ->
  let q := count_state Waiting (jobs w) + count_state Active (jobs w) + 1 in
  exists r1 r2 : Response,
    run handle (OrchestratorApi.get_status id) w = (w, Ok r1) /\
    run handle (LivePreviewEngine.get_preview id) w = (w, Ok r2) /\
    forall resp, resp = r1 \/ resp = r2 ->
      code resp = 200 /\
      (is_Some (jobs w !! id) -> status p = "building" ->
         get_field "queuePosition" (body resp) = VNum q /\
         get_field "estimatedTime" (body resp) = VNum (q * 30)) /\
      (status p <> "building" -> get_field "queuePosition" (body resp) = VNull) /\
      (jobs w !! id = None ->
         get_field "queuePosition" (body resp) = VNull /\
         get_field "estimatedTime" (body resp) = VNull).
Proof.
  intros Hp q.
  unfold OrchestratorApi.get_status, LivePreviewEngine.get_preview.
  cbn [await bind try_catch run handle db_get queue_get_job]. rewrite Hp.
  cbn [await bind try_catch run handle db_get queue_get_job].
  destruct (jobs w !! id) as [j|] eqn:Hj; cbn [await bind try_catch run handle].
  - rewrite position_truthy. cbn [andb].
    do 2 eexists. split; [reflexivity|]. split; [reflexivity|].
    intros resp [-> | ->]; (split; [reflexivity|]);
      (split; [intros _ Hb; rewrite Hb; split; reflexivity|]);
      (split; [|discriminate]);
      intros Hb; destruct (String.eqb_spec (status p) "building"); try contradiction;
      reflexivity.
  - do 2 eexists. split; [reflexivity|]. split; [reflexivity|].
    intros resp [-> | ->]; (split; [reflexivity|]);
      (split; [intros [? [=]]|]); split; intros _; try split; reflexivity.
Qed.

Lemma status_poll_position_witness :
  let w := world1 "building" [] [] in
  exists r1 r2 : Response,
    run handle (OrchestratorApi.get_status "preview_1_abc") w = (w, Ok r1) /\
    run handle (LivePreviewEngine.get_preview "preview_1_abc") w = (w, Ok r2) /\
    forall resp, resp = r1 \/ resp = r2 ->
      code resp = 200 /\
      (is_Some (jobs w !! "preview_1_abc") -> status (row1 "building") = "building" ->
         get_field "queuePosition" (body resp) = VNum 2 /\
         get_field "estimatedTime" (body resp) = VNum 60) /\
      (status (row1 "building") <> "building" ->
         get_field "queuePosition" (body resp) = VNull) /\
      (jobs w !! "preview_1_abc" = None ->
         get_field "queuePosition" (body resp) = VNull /\
         get_field "estimatedTime" (body resp) = VNull).
Proof.
  apply (status_poll_position (world1 "building" [] []) "preview_1_abc" (row1 "building")).
  reflexivity.
Defined.

(** The job of [world1] while the worker deploys it: the entry is in the
    queue, active, the status is [generating], and the poll gives no
    position. *)
Lemma no_position_while_generating :
  let w := world1 "generating" [] [] in
  let id := "preview_1_abc" in
  is_Some (jobs w !! id) /\
  job_counts (jobs w) =
    {| waiting := 0; active := 1; completed := 0; failed := 0; delayed := 0 |} /\
  answered "queuePosition" (run handle (OrchestratorApi.get_status id) w) = Some VNull /\
  answered "queuePosition" (run handle (LivePreviewEngine.get_preview id) w) = Some VNull /\
  answered "queuePosition" (run handle (OrchestratorApi.get_status id) w)
    <> Some (VNum (0 + 1 + 1)) /\
  answered "estimatedTime" (run handle (OrchestratorApi.get_status id) w) = Some (VNum 60).
Proof.
  split; [eexists; reflexivity|]. vm_compute. repeat split; try reflexivity. discriminate.
Qed.

(** ** Listing the previews of an owner *)

#[export] Instance newer_first_total : Total newer_first.
Proof. intros a b. unfold newer_first. lia. Qed.

Lemma Sorted_adjacent {A : Type} (R : A -> A -> Prop) (l : list A) :
  Sorted R l ->
  forall (i : nat) (a b : A), l !! i = Some a -> l !! S i = Some b -> R a b.
Proof.
  induction 1 as [|x l Hs IH Hhd]; intros i a b Ha Hb; [discriminate|].
  destruct i as [|i]; cbn in Ha, Hb.
  - injection Ha as ->. destruct Hhd as [|y l' Hxy]; [discriminate|].
    cbn in Hb. injection Hb as ->. exact Hxy.
  - exact (IH i a b Ha Hb).
Qed.

Lemma owned_by_spec (user : string) (p : Preview) :
  owned_by user p = true <-> userId p = VStr user.
Proof.
  unfold owned_by. destruct (userId p); try (split; discriminate).
  rewrite String.eqb_eq. split; [intros ->; reflexivity|intros [= ->]; reflexivity].
Qed.

Lemma list_by_user_Permutation (user : string) (m : gmap string Preview) :
  list_by_user user m ≡ₚ List.filter (owned_by user) (map_to_list m).*2.
Proof.
  unfold list_by_user. rewrite merge_sort_Permutation.
  symmetry. apply Permutation_rev.
Qed.

Lemma list_by_user_elem (user : string) (m : gmap string Preview) (p : Preview) :
  p ∈ list_by_user user m <-> exists id, m !! id = Some p /\ userId p = VStr user.
Proof.
  rewrite list_by_user_Permutation, list_elem_of_In, filter_In, <- list_elem_of_In.
  rewrite owned_by_spec, list_elem_of_fmap. split.
  - intros [[[id p'] [-> Hin]] Hu]. apply elem_of_map_to_list in Hin. eauto.
  - intros [id [Hid Hu]]. split; [|exact Hu].
    exists (id, p). split; [reflexivity|]. apply elem_of_map_to_list. exact Hid.
Qed.

(** C9: GET /api/previews/:userId returns exactly the rows of the owner,
    newest first: the list is a permutation of the owner's rows of the
    PreviewStore, and of any two adjacent rows the earlier has a
    [createdAt] greater than or equal to that of the later.  Both servers
    answer with this list. *)
Theorem previews_newest_first (w : World) (user : string) :
  let l := list_by_user user (previews w) in
  let answer :=
    json (VObj [("success", VBool true);
                ("previews", VArr (map (fun p => VObj (preview_fields p)) l))]) in
  run handle (OrchestratorApi.get_previews user) w = (w, Ok answer) /\
  run handle (LivePreviewEngine.get_previews user) w = (w, Ok answer) /\
  l ≡ₚ List.filter (owned_by user) (map_to_list (previews w)).*2 /\
  (forall p, p ∈ l <-> exists id, previews w !! id = Some p /\ userId p = VStr user) /\
  (forall (i : nat) (a b : Preview),
     l !! i = Some a -> l !! S i = Some b -> createdAt a >= createdAt b).
Proof.
  intros l answer. split; [reflexivity|]. split; [reflexivity|].
  split; [apply list_by_user_Permutation|].
  split; [intros p; apply list_by_user_elem|].
  intros i a b Ha Hb.
  assert (Hs : Sorted newer_first l) by apply (Sorted_merge_sort newer_first).
  pose proof (Sorted_adjacent newer_first l Hs i a b Ha Hb) as Hab.
  unfold newer_first in Hab. lia.
Qed.

(** Three rows, two of them of the owner [u1], listed newest first. *)
Example previews_newest_first_example :
  let row (id user : string) (t : Z) :=
    {| pid := id; prompt := VStr "p"; userId := VStr user; status := "building";
       liveUrl := None; error := None; createdAt := t; updatedAt := Some t |} in
  let m : gmap string Preview :=
    {[ "a" := row "a" "u1" 10; "b" := row "b" "u2" 20; "c" := row "c" "u1" 30 ]} in
  pid <$> list_by_user "u1" m = ["c"; "a"].
Proof. vm_compute. reflexivity. Qed.

(** ** Deployment to Netlify *)

(** C10, as amended: whenever the token is set and the site-creation
    request succeeds with a body that is neither [null] nor [undefined]
    (the API answers with the site it created), [deployToNetlify
    appFolderPath siteName] returns exactly "https://" ++ siteName ++
    ".netlify.app".  The calls it makes are the read of the token and the
    one request that creates the site, whose body holds the site name only:
    the artifact directory is neither read nor uploaded, the program does
    not depend on [appFolderPath] at all, and two calls with the same site
    name and different artifacts return the same URL. *)
Theorem deploy_url_from_site_name {W : Type} (h : forall c : Call, W -> W * Outcome (Resp c))
    (w w1 w2 : W) (appFolderPath siteName token : string) (resp : AxiosResponse) :
  h (EnvGet "NETLIFY_TOKEN") w = (w1, Ok (Some token)) ->
  token <> "" ->
  h (Netlify.site_request token siteName) w1 = (w2, Ok resp) ->
  resp_data resp <> VUndefined -> resp_data resp <> VNull ->
  run h (Netlify.deployToNetlify appFolderPath siteName) w
    = (w2, Ok ("https://" ++ siteName ++ ".netlify.app")) /\
  trace h (Netlify.deployToNetlify appFolderPath siteName) w
    = [EnvGet "NETLIFY_TOKEN"; Netlify.site_request token siteName] /\
  forall otherFolderPath,
    Netlify.deployToNetlify otherFolderPath siteName
      = Netlify.deployToNetlify appFolderPath siteName /\
    run h (Netlify.deployToNetlify otherFolderPath siteName) w
      = run h (Netlify.deployToNetlify appFolderPath siteName) w.
Proof.
  intros Henv Htok Hpost Hu Hn.
  assert (Hno : Netlify.no_token (Some token) = false).
  { cbn. destruct (String.eqb_spec token ""); [contradiction|reflexivity]. }
  unfold Netlify.deployToNetlify.
  cbn [await bind try_catch run trace]. rewrite Henv.
  cbn [await bind try_catch run trace]. rewrite Hno.
  cbn [await bind try_catch run trace default from_option id]. rewrite Hpost.
  cbn [await bind try_catch run trace].
  destruct (resp_data resp) eqn:Hd; try contradiction;
    cbn [await bind try_catch run trace Netlify.read_id];
    (split; [reflexivity|]); (split; [reflexivity|]); intros other; split; reflexivity.
Qed.

Lemma deploy_url_from_site_name_witness :
  run handle (Netlify.deployToNetlify "/tmp/preview_1_abc" "preview-1") netlify_world
    = (set_posts [] netlify_world, Ok "https://preview-1.netlify.app") /\
  run handle (Netlify.deployToNetlify "/tmp/preview_2_xyz" "preview-1") netlify_world
    = run handle (Netlify.deployToNetlify "/tmp/preview_1_abc" "preview-1") netlify_world.
Proof.
  pose proof (deploy_url_from_site_name handle netlify_world netlify_world
                (set_posts [] netlify_world) "/tmp/preview_1_abc" "preview-1" "nfp_token"
                {| resp_status := 201;
                   resp_data := VObj [("id", VStr "3970e0fe"); ("name", VStr "preview-1")] |}
                eq_refl ltac:(discriminate) eq_refl ltac:(discriminate) ltac:(discriminate))
    as (Hrun & _ & Hsame).
  split; [exact Hrun|]. apply (Hsame "/tmp/preview_2_xyz").
Defined.

(** The request that creates the site succeeds, with the body [null]: the
    read of [siteResponse.data.id] throws, and no URL is returned. *)
Lemma site_created_without_body :
  let w := set_posts [Ok {| resp_status := 201; resp_data := VNull |}] netlify_world in
  let out := run handle (Netlify.deployToNetlify "/tmp/preview_1_abc" "preview-1") w in
  handle (Netlify.site_request "nfp_token" "preview-1") w
    = (set_posts [] w, Ok {| resp_status := 201; resp_data := VNull |}) /\
  trace handle (Netlify.deployToNetlify "/tmp/preview_1_abc" "preview-1") w
    = [EnvGet "NETLIFY_TOKEN"; Netlify.site_request "nfp_token" "preview-1"] /\
  out.2 = Err (Error "Cannot read properties of null (reading 'id')") /\
  out.2 <> Ok "https://preview-1.netlify.app".
Proof. vm_compute. repeat split; try reflexivity. discriminate. Qed.

(** ** The pipeline, whatever the capabilities answer *)

Lemma no_url_false (liveUrl : option string) :
  no_url liveUrl = false -> exists u : string, liveUrl = Some u /\ u <> "".
Proof.
  destruct liveUrl as [u|]; cbn; [|discriminate].
  destruct (String.eqb_spec u ""); [discriminate|]. eauto.
Qed.

(** Whatever the capabilities answer, no path of the pipeline writes
    [live] without a URL. *)
Lemma processPreviewJob_live_writes (d : PreviewJobData) :
  all_calls live_write_has_url (processPreviewJob d).
Proof.
  assert (Hcatch : forall (A : Type) appPath e,
             all_calls live_write_has_url (@job_catch A (jobId d) appPath e)).
  { intros A appPath e. unfold job_catch.
    apply all_calls_bind; [destruct (String.eqb appPath ""); cbn; auto|].
    intros _. apply all_calls_bind; [apply all_calls_await; exact I|]. intros t.
    apply all_calls_bind; [apply all_calls_await; cbn; discriminate|]. intros _. exact I. }
  unfold processPreviewJob. apply all_calls_bind.
  - apply all_calls_try_catch; [|apply Hcatch].
    unfold job_generate.
    apply all_calls_bind; [apply all_calls_await; exact I|]. intros t.
    apply all_calls_bind; [apply all_calls_await; cbn; discriminate|]. intros _.
    apply (all_calls_mono generator_call); [|apply generateAppCode_generator_calls].
    intros []; cbn; tauto.
  - intros appPath. apply all_calls_try_catch; [|apply Hcatch].
    unfold job_deploy.
    apply all_calls_bind; [apply all_calls_await; exact I|]. intros t.
    apply all_calls_bind; [apply all_calls_await; cbn; discriminate|]. intros _.
    apply all_calls_bind; [apply all_calls_await; exact I|]. intros liveUrl.
    destruct (no_url liveUrl) eqn:Hn; [exact I|].
    destruct (no_url_false liveUrl Hn) as (u & -> & Hu).
    unfold job_finish.
    apply all_calls_bind; [apply all_calls_await; exact I|]. intros t'.
    apply all_calls_bind; [apply all_calls_await; cbn; eauto|]. intros _.
    apply all_calls_await_catch_ignore; exact I.
Qed.

Lemma tmp_path_nonempty (x : string) : String.eqb ("/tmp/preview_" ++ x) "" = false.
Proof. reflexivity. Qed.

(** Case analysis on the outcome of every call of a run against [h]. *)
Ltac explore h :=
  repeat match goal with
         | |- context [h ?c ?w] =>
             let w' := fresh "w" in
             let o := fresh "o" in
             destruct (h c w) as [w' [o|o]];
             cbn [run trace bind try_catch await await_catch_ignore fst snd]
         | |- context [String.eqb ("/tmp/preview_" ++ ?x) ""] =>
             rewrite (tmp_path_nonempty x);
             cbn [run trace bind try_catch await await_catch_ignore fst snd]
         | |- context [no_url ?u] =>
             destruct (no_url u);
             cbn [run trace bind try_catch await await_catch_ignore fst snd]
         end.

Lemma pipeline_paths {W : Type} (h : forall c : Call, W -> W * Outcome (Resp c))
    (d : PreviewJobData) (w : W) :
  let tr := trace h (processPreviewJob d) w in
  let ms := milestones tr in
  comes_before (Wrote "building") Generate ms = true /\
  comes_before Generate (Wrote "generating") ms = true /\
  comes_before (Wrote "generating") Deploy ms = true /\
  comes_before Deploy (Wrote "live") ms = true /\
  never_written "deploying" ms = true /\
  forward (status_writes tr) = true /\
  stays_terminal (status_writes tr) = true /\
  ((run h (processPreviewJob d) w).2 = Ok tt ->
   exists k : nat, (1 <= k <= 3)%nat /\
     ms = (Wrote "building" :: repeat Generate k ++
           [Wrote "generating"; Deploy; Wrote "live"])%list).
Proof.
  cbv zeta.
  unfold processPreviewJob, job_generate, job_deploy, job_finish, job_catch, generateAppCode.
  cbn [run trace bind try_catch await await_catch_ignore fst snd copy_template
       maxAttempts Nat.ltb Nat.leb Nat.eqb String.eqb].
  explore h.
  all: repeat (split; [reflexivity|]); cbn [snd]; try discriminate.
  all: intros _;
    first [ exists 1%nat; split; [lia|reflexivity]
          | exists 2%nat; split; [lia|reflexivity]
          | exists 3%nat; split; [lia|reflexivity] ].
Qed.

(** Case analysis on the outcome of every call, for the history of a run;
    a URL that passed the test [!liveUrl] is there and is not empty. *)
Ltac explore_history h :=
  repeat match goal with
         | |- context [h ?c ?w] =>
             let w' := fresh "w" in
             let o := fresh "o" in
             destruct (h c w) as [w' [o|o]];
             cbn [history seen bind try_catch await await_catch_ignore fst snd]
         | |- context [String.eqb ("/tmp/preview_" ++ ?x) ""] =>
             rewrite (tmp_path_nonempty x);
             cbn [history seen bind try_catch await await_catch_ignore fst snd]
         | |- context [no_url ?u] =>
             let Hn := fresh "Hn" in
             destruct (no_url u) eqn:Hn;
             [|let url := fresh "url" in
               let Hne := fresh "Hne" in
               destruct (no_url_false u Hn) as (url & -> & Hne)];
             cbn [history seen bind try_catch await await_catch_ignore fst snd default
                  from_option id]
         end.

(** Whatever the capabilities answer, the pipeline writes [live] only when
    its call of the DeploymentTarget has resolved to a URL that is not
    empty, and it writes that URL. *)
Lemma pipeline_live_after_deploy {W : Type} (h : forall c : Call, W -> W * Outcome (Resp c))
    (d : PreviewJobData) (w : W) :
  live_after_deploy None (history h (processPreviewJob d) w).
Proof.
  unfold processPreviewJob, job_generate, job_deploy, job_finish, job_catch, generateAppCode.
  cbn [history seen bind try_catch await await_catch_ignore fst snd copy_template
       maxAttempts Nat.ltb Nat.leb Nat.eqb String.eqb].
  explore_history h.
  all: cbn [live_after_deploy ch_status ch_liveUrl status_only].
  all: repeat split; try discriminate.
  all: try (intros _; eexists; repeat split; [assumption]).
Qed.

(** C2, as amended: in every pipeline run, whatever the capabilities
    answer, the worker writes [building] before the CodeGenerator works,
    writes [generating] only after that work and before it invokes the
    DeploymentTarget, and writes [live] only after the DeploymentTarget was
    invoked and has resolved to a URL that is not empty, which is the URL
    it writes: after a deployment that failed, or that resolved to no URL
    or to the empty one, [live] is not written.  It never writes
    [deploying].  A run that succeeds writes exactly building, generating,
    live, in this order, around one to three copies of the template and
    one deployment. *)
Theorem pipeline_order {W : Type} (h : forall c : Call, W -> W * Outcome (Resp c))
    (d : PreviewJobData) (w : W) :
  let ms := milestones (trace h (processPreviewJob d) w) in
  comes_before (Wrote "building") Generate ms = true /\
  comes_before Generate (Wrote "generating") ms = true /\
  comes_before (Wrote "generating") Deploy ms = true /\
  comes_before Deploy (Wrote "live") ms = true /\
  live_after_deploy None (history h (processPreviewJob d) w) /\
  Forall live_write_has_url (trace h (processPreviewJob d) w) /\
  never_written "deploying" ms = true /\
  ((run h (processPreviewJob d) w).2 = Ok tt ->
   exists k : nat, (1 <= k <= 3)%nat /\
     ms = (Wrote "building" :: repeat Generate k ++
           [Wrote "generating"; Deploy; Wrote "live"])%list).
Proof.
  destruct (pipeline_paths h d w) as (H1 & H2 & H3 & H4 & H5 & _ & _ & H8).
  pose proof (trace_all_calls h live_write_has_url (processPreviewJob d)
                (processPreviewJob_live_writes d) w) as H6.
  pose proof (pipeline_live_after_deploy h d w) as H7.
  repeat split; assumption.
Qed.

(** The history of a run that succeeds; and two histories that the
    property rules out: [live] after a deployment that failed, and [live]
    with another URL than the one the deployment resolved to. *)
Example live_after_deploy_examples :
  let url := "https://preview-1.netlify.app" in
  let live u := {| ch_status := "live"; ch_liveUrl := Some u; ch_error := None;
                   ch_updatedAt := Some 5 |} in
  history handle (processPreviewJob job1) (world1 "building" [Ok tt] [Ok (Some url)])
    = [Written "preview_1_abc" (status_only "building" 5);
       Written "preview_1_abc" (status_only "generating" 5);
       Deployed (Ok (Some url));
       Written "preview_1_abc" (live url)] /\
  ~ live_after_deploy None [Deployed (Err (Error "Netlify API error: unavailable"));
                            Written "preview_1_abc" (live url)] /\
  ~ live_after_deploy None [Deployed (Ok (Some url));
                            Written "preview_1_abc" (live "https://example.org")].
Proof.
  cbv zeta. split; [reflexivity|].
  split; intros [H _]; destruct (H eq_refl) as (u & Hu & _ & Hw);
    first [ discriminate Hu | injection Hu as <-; discriminate Hw ].
Qed.

(** A run of the pipeline that succeeds: [generating] is written after the
    generation, not before it, and [deploying] is not written before the
    deployment (nor at all). *)
Lemma generating_written_after_generation :
  let w := world1 "building" [Ok tt] [Ok (Some "https://preview-1.netlify.app")] in
  let ms := milestones (trace handle (processPreviewJob job1) w) in
  (run handle (processPreviewJob job1) w).2 = Ok tt /\
  ms = [Wrote "building"; Generate; Wrote "generating"; Deploy; Wrote "live"] /\
  comes_before (Wrote "generating") Generate ms = false /\
  comes_before (Wrote "deploying") Deploy ms = false.
Proof. vm_compute. repeat split; reflexivity. Qed.

(** ** The pipeline against the PreviewStore *)

(** The generator touches neither the PreviewStore, nor the queue, nor the
    answers of the DeploymentTarget. *)
Lemma generator_call_frame (c : Call) (w : World) :
  generator_call c ->
  previews (handle c w).1 = previews w /\
  jobs (handle c w).1 = jobs w /\
  deploys (handle c w).1 = deploys w.
Proof.
  destruct c; simpl; try contradiction; intros _; auto.
  - unfold math_random. destruct (random w); auto.
  - unfold fs_copy. destruct (copies w); auto.
Qed.

Lemma generateAppCode_frame (prompt : JsValue) (w : World) :
  previews (run handle (generateAppCode prompt) w).1 = previews w /\
  jobs (run handle (generateAppCode prompt) w).1 = jobs w /\
  deploys (run handle (generateAppCode prompt) w).1 = deploys w.
Proof.
  apply (run_invariant handle generator_call
           (fun w' => previews w' = previews w /\ jobs w' = jobs w /\ deploys w' = deploys w)).
  - intros c w' Hc (Hp & Hj & Hd).
    destruct (generator_call_frame c w' Hc) as (Hp' & Hj' & Hd'). repeat split; congruence.
  - apply generateAppCode_generator_calls.
  - auto.
Qed.

Lemma db_update_present (id : string) (ch : Changes) (w : World) (r : Preview) :
  previews w !! id = Some r ->
  db_update id ch w = (set_previews (insert id (apply_changes ch r)) w, Ok 1%nat).
Proof. intros Hr. unfold db_update. rewrite Hr. reflexivity. Qed.

(** The first half of the pipeline on a row that exists: the row is set to
    [building], whatever its status was, and nothing else is touched. *)
Lemma job_generate_frame (d : PreviewJobData) (w : World) (r : Preview) :
  previews w !! jobId d = Some r ->
  previews (run handle (job_generate d) w).1
    = <[jobId d := apply_changes (status_only "building" (now w)) r]> (previews w) /\
  jobs (run handle (job_generate d) w).1 = jobs w /\
  deploys (run handle (job_generate d) w).1 = deploys w.
Proof.
  intros Hr. unfold job_generate.
  cbn [await bind run handle]. rewrite (db_update_present _ _ _ r Hr).
  cbn [await bind run].
  exact (generateAppCode_frame (job_prompt d) _).
Qed.

(** C5: if the generation succeeds and the DeploymentTarget returns a
    missing or empty URL, the run of the pipeline throws, and the row of
    the job ends with status [failed] and the error message of the missing
    URL; its [liveUrl] is left as it was, and it is not [live].  No write
    of the run sets [live] without a URL that is not empty. *)
Theorem empty_url_is_failure (d : PreviewJobData) (w w1 : World) (r : Preview)
    (appPath : string) (u : option string) (ds : list (Outcome (option string))) :
  previews w !! jobId d = Some r ->
  run handle (job_generate d) w = (w1, Ok appPath) ->
  deploys w = Ok u :: ds ->
  no_url u = true ->
  (run handle (processPreviewJob d) w).2
    = Err (Error "Failed to get deployment URL from Netlify") /\
  exists r' : Preview,
    previews (run handle (processPreviewJob d) w).1 !! jobId d = Some r' /\
    status r' = "failed" /\
    error r' = Some "Failed to get deployment URL from Netlify" /\
    liveUrl r' = liveUrl r /\
    status r' <> "live" /\
    Forall live_write_has_url (trace handle (processPreviewJob d) w).
Proof.
  intros Hr Hgen Hds Hu.
  pose proof (trace_all_calls handle live_write_has_url (processPreviewJob d)
                (processPreviewJob_live_writes d) w) as Hlive.
  revert Hlive. generalize (trace handle (processPreviewJob d) w). intros tr Hlive.
  destruct (job_generate_frame d w r Hr) as (Hp1 & _ & Hd1).
  rewrite Hgen in Hp1, Hd1. cbn [fst] in Hp1, Hd1.
  unfold processPreviewJob.
  rewrite run_bind, run_try_catch, Hgen, run_try_catch.
  unfold job_deploy. cbn [await bind run handle].
  erewrite db_update_present by (rewrite Hp1; apply lookup_insert_eq).
  cbn [await bind run handle]. unfold deploy_to_netlify.
  cbn [deploys set_previews]. rewrite Hd1, Hds. cbn [await bind run]. rewrite Hu.
  cbn [run]. unfold job_catch.
  rewrite run_bind.
  match goal with
  | |- context [run handle (if String.eqb appPath "" then _ else _) ?w'] =>
      replace (run handle (if String.eqb appPath "" then Ret tt
                           else await_catch_ignore (FsRemove appPath)) w')
        with (w', Ok tt) by (destruct (String.eqb appPath ""); reflexivity)
  end.
  cbn [await bind run handle message_or_unknown].
  erewrite db_update_present
    by (cbn [previews set_deploys set_previews]; apply lookup_insert_eq).
  cbn [await bind run fst snd]. split; [reflexivity|].
  eexists. cbn [previews set_previews set_deploys].
  split; [apply lookup_insert_eq|].
  cbn. repeat split; try reflexivity; [discriminate|exact Hlive].
Qed.

(** The DeploymentTarget answers with an empty URL: the row ends [failed]. *)
Lemma empty_url_is_failure_witness :
  let w := world1 "building" [Ok tt] [Ok (Some "")] in
  (run handle (processPreviewJob job1) w).2
    = Err (Error "Failed to get deployment URL from Netlify") /\
  exists r' : Preview,
    previews (run handle (processPreviewJob job1) w).1 !! jobId job1 = Some r' /\
    status r' = "failed" /\
    error r' = Some "Failed to get deployment URL from Netlify" /\
    liveUrl r' = liveUrl (row1 "building") /\
    status r' <> "live" /\
    Forall live_write_has_url (trace handle (processPreviewJob job1) w).
Proof.
  apply (empty_url_is_failure job1 (world1 "building" [Ok tt] [Ok (Some "")])
           (run handle (job_generate job1) (world1 "building" [Ok tt] [Ok (Some "")])).1
           (row1 "building") "/tmp/preview_5_k3j9x0q2m" (Some "") []);
    reflexivity.
Defined.

(** The same when the DeploymentTarget resolves to no URL at all. *)
Example missing_url_is_failure :
  status_of "preview_1_abc"
    (run handle (processPreviewJob job1) (world1 "building" [Ok tt] [Ok None])).1
  = Some "failed".
Proof. vm_compute. reflexivity. Qed.

(** ** The final write *)

Lemma steps_add {R : Type} (n m : nat) :
  forall (p : Prog R) (w : World),
    steps (n + m) p w = steps m (steps n p w).1 (steps n p w).2.
Proof.
  induction n as [|n IH]; intros p w; [reflexivity|].
  cbn [Nat.add steps]. destruct (step handle p w) as [p' w']. apply IH.
Qed.

(** A program that resolves has, turn after turn, handed its result to
    what follows it. *)
Lemma steps_bind {A B : Type} (f : A -> Prog B) :
  forall (p : Prog A) (w w' : World) (a : A),
    run handle p w = (w', Ok a) ->
    exists n : nat, steps n (bind p f) w = (f a, w').
Proof.
  induction p as [r|e|c k IH]; intros w w' a Hrun; cbn [run] in Hrun.
  - injection Hrun as <- <-. exists 0%nat. reflexivity.
  - discriminate.
  - destruct (handle c w) as [w1 o] eqn:Hc.
    destruct (IH o w1 w' a Hrun) as [n Hn].
    exists (S n). cbn [steps bind step]. rewrite Hc. exact Hn.
Qed.

(** C3, as amended: the final write of the pipeline is unconditional (last
    write wins).  The worker never reads the PreviewStore: on every path,
    whatever the capabilities answer, its calls are the clock, the random
    suffix, the file system, the DeploymentTarget and updates of its own
    row.  And in a run where the generation succeeded and the deployment
    has resolved to a URL that is not empty, the worker is, at the turn
    where the deployment returns, the final write followed by the cleanup,
    under the [catch] block: resumed in any world, whatever the
    PreviewStore has become in the meantime and whatever the status of the
    row at that moment, also [failed], it resolves and leaves the row
    [live] with the URL of the deployment. *)
Theorem final_write_unconditional (d : PreviewJobData) (w w1 : World)
    (appPath url : string) (ds : list (Outcome (option string))) :
  run handle (job_generate d) w = (w1, Ok appPath) ->
  deploys w1 = Ok (Some url) :: ds ->
  url <> "" ->
  let resumed := try_catch (job_finish d appPath url) (job_catch (jobId d) appPath) in
  all_calls (worker_call (jobId d)) (processPreviewJob d) /\
  exists (n : nat) (w2 : World),
    steps n (processPreviewJob d) w = (resumed, w2) /\
    deploys w2 = ds /\
    forall (w3 : World) (r3 : Preview),
      previews w3 !! jobId d = Some r3 ->
      run handle resumed w3
        = (set_previews
             (insert (jobId d)
                (apply_changes {| ch_status := "live"; ch_liveUrl := Some url;
                                  ch_error := None; ch_updatedAt := Some (now w3) |} r3)) w3,
           Ok tt) /\
      status_of (jobId d) (run handle resumed w3).1 = Some "live".
Proof.
  intros Hgen Hdep Hurl resumed. split; [apply processPreviewJob_calls|].
  assert (Hgen' : run handle (try_catch (job_generate d) (job_catch (jobId d) "")) w
                  = (w1, Ok appPath)).
  { rewrite run_try_catch, Hgen. reflexivity. }
  destruct (steps_bind (fun appPath => try_catch (job_deploy d appPath)
                                          (job_catch (jobId d) appPath))
              _ _ _ _ Hgen') as [n Hn].
  assert (Hno : no_url (Some url) = false).
  { cbn. destruct (String.eqb_spec url ""); [contradiction|reflexivity]. }
  assert (Hfin : forall (w3 : World) (r3 : Preview),
             previews w3 !! jobId d = Some r3 ->
             run handle resumed w3
             = (set_previews
                  (insert (jobId d)
                     (apply_changes {| ch_status := "live"; ch_liveUrl := Some url;
                                       ch_error := None; ch_updatedAt := Some (now w3) |} r3))
                  w3, Ok tt)).
  { intros w3 r3 Hr3. unfold resumed. rewrite run_try_catch.
    unfold job_finish. cbn [await await_catch_ignore bind run handle].
    rewrite (db_update_present _ _ _ r3 Hr3). reflexivity. }
  exists (n + 3)%nat.
  unfold processPreviewJob. rewrite steps_add, Hn. cbn [fst snd].
  unfold job_deploy.
  cbn [steps step bind try_catch await handle].
  destruct (db_update (jobId d) (status_only "generating" (now w1)) w1) as [w1' o] eqn:Hupd.
  assert (Hw1' : deploys w1' = deploys w1 /\ exists k, o = Ok k).
  { unfold db_update in Hupd. destruct (previews w1 !! jobId d);
      injection Hupd as <- <-; split; eauto. }
  destruct Hw1' as [Hd' [k ->]].
  cbn [steps step bind try_catch await handle]. unfold deploy_to_netlify.
  rewrite Hd', Hdep. cbn [steps step bind try_catch await handle]. rewrite Hno.
  cbn [default from_option id].
  eexists. split; [reflexivity|]. split; [reflexivity|].
  intros w3 r3 Hr3. split; [exact (Hfin w3 r3 Hr3)|].
  rewrite (Hfin w3 r3 Hr3). unfold status_of. cbn [fst previews set_previews].
  rewrite lookup_insert_eq. reflexivity.
Qed.

(** The worker at the turn where its deployment returns, resumed on a row
    that a cancellation has marked [failed] in the meantime. *)
Lemma final_write_unconditional_witness :
  let w := world1 "building" [Ok tt] [Ok (Some "https://preview-1.netlify.app")] in
  let cancelled_world := world1 "failed" [] [] in
  exists (resumed : Prog unit) (n : nat) (w2 : World),
    steps n (processPreviewJob job1) w = (resumed, w2) /\
    next_call resumed = Some DateNow /\
    status_of "preview_1_abc" cancelled_world = Some "failed" /\
    status_of "preview_1_abc" (run handle resumed cancelled_world).1 = Some "live".
Proof.
  cbv zeta.
  destruct (final_write_unconditional job1
              (world1 "building" [Ok tt] [Ok (Some "https://preview-1.netlify.app")])
              (run handle (job_generate job1)
                 (world1 "building" [Ok tt] [Ok (Some "https://preview-1.netlify.app")])).1
              "/tmp/preview_5_k3j9x0q2m" "https://preview-1.netlify.app" []
              eq_refl eq_refl ltac:(discriminate))
    as (_ & n & w2 & Hsteps & _ & Hany).
  eexists _, n, w2. split; [exact Hsteps|]. split; [reflexivity|]. split; [reflexivity|].
  exact (proj2 (Hany (world1 "failed" [] []) (row1 "failed") eq_refl)).
Defined.

(** A cancellation while the worker is in flight.  The worker runs up to
    its call of the DeploymentTarget (seven turns); the DELETE handler then
    runs to its end (four turns) and marks the row [failed]; the worker
    resumes, the deployment succeeds, and its final write puts the row
    back to [live]. *)
Lemma late_success_overwrites_cancellation :
  let w := world1 "building" [Ok tt] [Ok (Some "https://preview-1.netlify.app")] in
  let id := "preview_1_abc" in
  let '(worker, handler, w1) :=
    interleave (repeat true 7 ++ repeat false 4)%list
               (processPreviewJob job1) (OrchestratorApi.delete_preview id) w in
  let '(worker', _, w2) := interleave (repeat true 4) worker handler w1 in
  next_call worker = Some (DeployToNetlify "/tmp/preview_5_k3j9x0q2m") /\
  finished handler = Some (Ok cancelled) /\
  (previews w1 !! id) ≫= error = Some "Cancelled by user" /\
  status_of id w1 = Some "failed" /\
  finished worker' = Some (Ok tt) /\
  status_of id w2 = Some "live" /\
  (previews w2 !! id) ≫= liveUrl = Some "https://preview-1.netlify.app".
Proof. vm_compute. repeat split; reflexivity. Qed.

(** The same without any cancellation: two runs of the pipeline on one job
    that overlap, as when the queue has given up on a run that is still in
    flight and has started the next attempt.  The first run waits for its
    deployment; the second fails to copy the template and marks the row
    [failed]; the first resumes and puts the row to [live]. *)
Example late_success_overwrites_failed_attempt :
  let w := world1 "building" [Ok tt] [Ok (Some "https://preview-1.netlify.app")] in
  let id := "preview_1_abc" in
  let '(first, second, w1) :=
    interleave (repeat true 7 ++ repeat false 11)%list
               (processPreviewJob job1) (processPreviewJob job1) w in
  let '(first', _, w2) := interleave (repeat true 4) first second w1 in
  next_call first = Some (DeployToNetlify "/tmp/preview_5_k3j9x0q2m") /\
  (exists e, finished second = Some (Err e)) /\
  status_of id w1 = Some "failed" /\
  finished first' = Some (Ok tt) /\
  status_of id w2 = Some "live".
Proof. vm_compute. repeat split; try reflexivity. eexists; reflexivity. Qed.

(** ** Forward progression *)

(** C1, as amended: within one attempt of the worker the statuses written
    progress only forward through building, generating, live or failed: no
    write of the attempt moves the status backward, and none follows a
    terminal status with a non-terminal one.  Every attempt begins by
    writing [building], whatever the status of the row is at that moment
    (also [live] or [failed], as on a retried attempt). *)
Theorem attempt_progresses_forward (d : PreviewJobData) (w : World) (r : Preview) :
  previews w !! jobId d = Some r ->
  let tr := trace handle (processPreviewJob d) w in
  forward (status_writes tr) = true /\
  stays_terminal (status_writes tr) = true /\
  hd_error (status_writes tr) = Some "building" /\
  status_of (jobId d) (steps 2 (processPreviewJob d) w).2 = Some "building".
Proof.
  intros Hr tr.
  destruct (pipeline_paths handle d w) as (_ & _ & _ & _ & _ & Hf & Ht & _).
  split; [exact Hf|]. split; [exact Ht|]. subst tr.
  unfold processPreviewJob, job_generate, status_of.
  cbn [trace steps step bind try_catch await handle].
  rewrite (db_update_present _ _ _ r Hr).
  cbn [trace steps step bind try_catch await handle snd previews set_previews].
  rewrite lookup_insert_eq. split; reflexivity.
Qed.

(** An attempt on a row that is [failed] sets it to [building]. *)
Lemma attempt_progresses_forward_witness :
  let w := world1 "failed" [Ok tt] [Ok (Some "https://preview-1.netlify.app")] in
  status_of "preview_1_abc" w = Some "failed" /\
  status_of "preview_1_abc" (steps 2 (processPreviewJob job1) w).2 = Some "building" /\
  forward (status_writes (trace handle (processPreviewJob job1) w)) = true.
Proof.
  split; [reflexivity|].
  pose proof (attempt_progresses_forward job1
                (world1 "failed" [Ok tt] [Ok (Some "https://preview-1.netlify.app")])
                (row1 "failed") eq_refl) as (Hf & _ & _ & Hb).
  split; [exact Hb|exact Hf].
Defined.

(** A job whose first attempt fails in the generation (the copy of the
    template fails three times) and whose second attempt succeeds: the
    queue runs the worker twice, the row is [failed] after the first
    attempt, the first write of the second attempt moves it back to
    [building], and it ends [live]. *)
Lemma retried_attempt_moves_failed_back :
  let enoent := Err (Error "ENOENT: no such file or directory") in
  let w := world1 "building" [enoent; enoent; enoent; Ok tt]
                  [Ok (Some "https://preview-1.netlify.app")] in
  let id := "preview_1_abc" in
  let first := work defaultJobOptions 1 id w in
  let all := work defaultJobOptions 3 id w in
  status_of id (world_after first) = Some "failed" /\
  status_of id (steps 2 (processor job1) (world_after first)).2 = Some "building" /\
  attempts_run all = 2%nat /\
  status_writes (calls all) = ["building"; "failed"; "building"; "generating"; "live"] /\
  forward (status_writes (calls all)) = false /\
  stays_terminal (status_writes (calls all)) = false /\
  status_of id (world_after all) = Some "live".
Proof. vm_compute. repeat split; reflexivity. Qed.

(** ** Estimates after a failure *)

(** A job that failed for good, whose entry the queue keeps
    ([removeOnFail] is false): the poll still carries an estimate. *)
Example estimate_after_failure :
  let w := set_jobs (alter (given_up 3) "preview_1_abc") (world1 "failed" [] []) in
  let out := run handle (OrchestratorApi.get_status "preview_1_abc") w in
  state <$> jobs w !! "preview_1_abc" = Some Failed /\
  answered "status" out = Some (VStr "failed") /\
  answered "queuePosition" out = Some VNull /\
  answered "estimatedTime" out = Some (VNum 30).
Proof. vm_compute. repeat split; reflexivity. Qed.

(** * Further properties of the code *)

(** ** The generator *)

(** Case analysis on the outcome of every call, for goals with no path
    test and no URL test. *)
Ltac explore_calls h :=
  repeat match goal with
         | |- context [h ?c ?w] =>
             let w' := fresh "w" in
             let o := fresh "o" in
             destruct (h c w) as [w' [o|o]];
             cbn [run trace bind try_catch await await_catch_ignore fst snd]
         end.


(** The retry loop of generateAppCode ends by itself within [maxAttempts]
    iterations: bounding it by [maxAttempts] minus the attempts made, or by
    any larger number, gives the same run and the same calls, whatever the
    file system answers. *)
Lemma copy_template_fuel {W : Type} (h : forall c : Call, W -> W * Outcome (Resp c))
    (outputPath : string) (extra : nat) :
  forall (fuel attempts : nat) (w : W),
    (maxAttempts <= fuel + attempts)%nat ->
    run h (copy_template (fuel + extra) attempts outputPath) w
      = run h (copy_template fuel attempts outputPath) w /\
    trace h (copy_template (fuel + extra) attempts outputPath) w
      = trace h (copy_template fuel attempts outputPath) w.
Proof.
  induction fuel as [|fuel IH]; intros attempts w Hle.
  - cbn [Nat.add] in *. destruct extra as [|extra]; [auto|].
    cbn [copy_template]. destruct (Nat.ltb_spec attempts maxAttempts); [lia|]. auto.
  - cbn [Nat.add copy_template].
    destruct (Nat.ltb_spec attempts maxAttempts) as [Hlt|Hge]; [|auto].
    cbn [run trace]. destruct (h (FsCopy templatePath outputPath) w) as [w1 [[]|e]]; [auto|].
    destruct (Nat.eqb_spec (S attempts) maxAttempts) as [Heq|Hne]; [auto|].
    cbn [run trace bind await].
    destruct (h (Sleep (1000 * Z.of_nat (S attempts))) w1) as [w2 [[]|e']];
      cbn [run trace bind]; [|auto].
    destruct (IH (S attempts) w2 ltac:(lia)) as [Hr Ht]. rewrite Hr, Ht. auto.
Qed.

Lemma copy_template_fuel_witness :
  run handle (copy_template 10 0 "/tmp/preview_5_k3j9x0q2m") (world1 "building" [] [])
  = run handle (copy_template 3 0 "/tmp/preview_5_k3j9x0q2m") (world1 "building" [] []).
Proof.
  apply (copy_template_fuel handle "/tmp/preview_5_k3j9x0q2m" 7 3 0 (world1 "building" [] [])).
  reflexivity.
Defined.

(** generateAppCode against the file system: it resolves to the output
    path as soon as one of its first three copies succeeds, having waited
    1000 ms, then 2000 ms, after the failed ones; when the three copies
    fail it throws, with the message of the last failure in its own. *)
Theorem generateAppCode_outcome (prompt : JsValue) (w : World) :
  let out := run handle (generateAppCode prompt) w in
  (forall i : nat,
     (i < 3)%nat -> nth_copy w i = Ok tt ->
     (forall j : nat, (j < i)%nat -> nth_copy w j <> Ok tt) ->
     out.2 = Ok (output_path w) /\
     now out.1 = now w + 500 * Z.of_nat i * (Z.of_nat i + 1) /\
     copies out.1 = drop (S i) (copies w)) /\
  (forall e0 e1 e2 : JsError,
     nth_copy w 0 = Err e0 -> nth_copy w 1 = Err e1 -> nth_copy w 2 = Err e2 ->
     out.2 = Err (Error ("Failed to copy template after 3 attempts: "
                         ++ error_to_string e2))).
Proof.
  cbv zeta. unfold generateAppCode, output_path, nth_copy.
  cbn [run bind await handle]. unfold math_random.
  destruct (random w) as [|rnd rest]; cbn [run bind await];
    cbn [copy_template maxAttempts Nat.ltb Nat.leb Nat.eqb run bind await handle];
    (destruct (copies w) as [|[[]|x0] [|[[]|x1] [|[[]|x2] cs]]] eqn:Hcs;
     repeat (progress (unfold fs_copy;
                       cbn [run bind await handle fst snd copies set_random set_copies
                            set_now now]);
             rewrite ?Hcs);
     cbn [lookup list_lookup];
     (split;
      [ intros [|[|[|i]]] Hi Hok Hbefore; try lia; try discriminate;
        try (exfalso; apply (Hbefore 0%nat); [lia|reflexivity]);
        try (exfalso; apply (Hbefore 1%nat); [lia|reflexivity]);
        cbn [drop]; repeat split; try reflexivity; lia
      | intros e0 e1 e2 H0 H1 H2; try discriminate;
        injection H2 as <-; reflexivity ])).
Qed.

(** Two copies fail, the third succeeds: 3000 ms of waits in all. *)
Example generateAppCode_third_copy :
  let enoent := Err (Error "ENOENT: no such file or directory") in
  let w := world1 "building" [enoent; enoent; Ok tt] [] in
  let out := run handle (generateAppCode (VStr "todo app")) w in
  out.2 = Ok "/tmp/preview_5_k3j9x0q2m" /\ now out.1 = 3005 /\ copies out.1 = [].
Proof. vm_compute. repeat split; reflexivity. Qed.

(** The text of the last failure in the message: an Error with a message,
    an Error without one, and a thrown number. *)
Example generateAppCode_last_failure :
  let third e := world1 "building" [Err (Error "EBUSY"); Err (Error "EBUSY"); Err e] [] in
  let thrown e := (run handle (generateAppCode (VStr "todo app")) (third e)).2 in
  thrown (Error "ENOENT: no such file or directory")
    = Err (Error ("Failed to copy template after 3 attempts: "
                  ++ "Error: ENOENT: no such file or directory")) /\
  thrown (Error "") = Err (Error "Failed to copy template after 3 attempts: Error") /\
  thrown (Thrown "42") = Err (Error "Failed to copy template after 3 attempts: 42").
Proof. vm_compute. repeat split; reflexivity. Qed.

(** ** The worker and the rows of the PreviewStore *)

Lemma job_catch_run {A : Type} (id appPath : string) (e : JsError) (w : World) (r : Preview) :
  previews w !! id = Some r ->
  run handle (@job_catch A id appPath e) w
  = (set_previews
       (insert id (apply_changes {| ch_status := "failed"; ch_liveUrl := None;
                                    ch_error := Some (message_or_unknown e);
                                    ch_updatedAt := Some (now w) |} r)) w,
     Err e).
Proof.
  intros Hr. unfold job_catch. rewrite run_bind.
  replace (run handle (if String.eqb appPath "" then Ret tt
                       else await_catch_ignore (FsRemove appPath)) w)
    with (w, @Ok unit tt) by (destruct (String.eqb appPath ""); reflexivity).
  cbn [await bind run handle]. rewrite (db_update_present _ _ _ r Hr). reflexivity.
Qed.

Lemma job_finish_run (d : PreviewJobData) (appPath liveUrl : string) (w : World) (r : Preview) :
  previews w !! jobId d = Some r ->
  run handle (job_finish d appPath liveUrl) w
  = (set_previews
       (insert (jobId d) (apply_changes {| ch_status := "live"; ch_liveUrl := Some liveUrl;
                                           ch_error := None;
                                           ch_updatedAt := Some (now w) |} r)) w,
     Ok tt).
Proof.
  intros Hr. unfold job_finish. cbn [await await_catch_ignore bind run handle].
  rewrite (db_update_present _ _ _ r Hr). reflexivity.
Qed.

(** What a run of processPreviewJob leaves in the row of its job, when the
    row exists: if the run resolves, the row is [live] with a URL that is
    not empty; if it throws, the row is [failed] with the message of the
    very error thrown, and its [liveUrl] is as before.  The identity of the
    row is kept.  A run that resolves does not clear [error]: the message
    an earlier failed attempt left stays in the [live] row. *)
Theorem processPreviewJob_records_outcome (d : PreviewJobData) (w : World) (r : Preview) :
  previews w !! jobId d = Some r ->
  let out := run handle (processPreviewJob d) w in
  exists r' : Preview,
    previews out.1 !! jobId d = Some r' /\
    (pid r', prompt r', userId r', createdAt r') = (pid r, prompt r, userId r, createdAt r) /\
    match out.2 with
    | Ok _ =>
        status r' = "live" /\ (exists u, liveUrl r' = Some u /\ u <> "") /\ error r' = error r
    | Err e =>
        status r' = "failed" /\ error r' = Some (message_or_unknown e) /\ liveUrl r' = liveUrl r
    end.
Proof.
  intros Hr. cbv zeta.
  destruct (job_generate_frame d w r Hr) as (Hp1 & _ & _).
  unfold processPreviewJob. rewrite run_bind, run_try_catch.
  destruct (run handle (job_generate d) w) as [w1 [appPath|e]] eqn:Hgen; cbn [fst] in Hp1.
  - rewrite run_try_catch. unfold job_deploy. cbn [await bind run handle].
    erewrite db_update_present by (rewrite Hp1; apply lookup_insert_eq).
    cbn [await bind run handle]. unfold deploy_to_netlify. cbn [deploys set_previews].
    destruct (deploys w1) as [|[u|e] ds]; cbn [await bind run].
    + erewrite job_catch_run by (cbn [previews set_previews]; apply lookup_insert_eq).
      eexists. cbn [fst snd previews set_previews]. split; [apply lookup_insert_eq|].
      cbn. auto.
    + destruct (no_url u) eqn:Hu; cbn [run].
      * erewrite job_catch_run
          by (cbn [previews set_previews set_deploys]; apply lookup_insert_eq).
        eexists. cbn [fst snd previews set_previews set_deploys].
        split; [apply lookup_insert_eq|]. cbn. auto.
      * destruct (no_url_false u Hu) as (url & -> & Hne).
        erewrite job_finish_run
          by (cbn [previews set_previews set_deploys]; apply lookup_insert_eq).
        eexists. cbn [fst snd previews set_previews set_deploys].
        split; [apply lookup_insert_eq|]. cbn. repeat split; eauto.
    + erewrite job_catch_run
        by (cbn [previews set_previews set_deploys]; apply lookup_insert_eq).
      eexists. cbn [fst snd previews set_previews set_deploys].
      split; [apply lookup_insert_eq|]. cbn. auto.
  - erewrite job_catch_run by (rewrite Hp1; apply lookup_insert_eq).
    eexists. cbn [fst snd previews set_previews]. split; [apply lookup_insert_eq|].
    cbn. auto.
Qed.

(** A second attempt that succeeds on a row the first attempt marked
    failed: the row is live, and still carries the error of the first. *)
Lemma processPreviewJob_records_outcome_witness :
  let failed_row :=
    apply_changes {| ch_status := "failed"; ch_liveUrl := None;
                     ch_error := Some "Failed to get deployment URL from Netlify";
                     ch_updatedAt := Some 3 |} (row1 "generating") in
  let w := set_previews (insert "preview_1_abc" failed_row)
             (world1 "failed" [Ok tt] [Ok (Some "https://preview-1.netlify.app")]) in
  let out := run handle (processPreviewJob job1) w in
  out.2 = Ok tt /\
  exists r' : Preview,
    previews out.1 !! jobId job1 = Some r' /\
    (pid r', prompt r', userId r', createdAt r')
      = (pid failed_row, prompt failed_row, userId failed_row, createdAt failed_row) /\
    match out.2 with
    | Ok _ =>
        status r' = "live" /\ (exists u, liveUrl r' = Some u /\ u <> "") /\
        error r' = error failed_row
    | Err e =>
        status r' = "failed" /\ error r' = Some (message_or_unknown e) /\
        liveUrl r' = liveUrl failed_row
    end.
Proof.
  split; [reflexivity|].
  apply (processPreviewJob_records_outcome job1). reflexivity.
Defined.

Lemma worker_call_previews (id : string) (c : Call) (w : World) :
  worker_call id c ->
  dom (previews (handle c w).1) = dom (previews w) /\
  (forall id', id' <> id -> previews (handle c w).1 !! id' = previews w !! id').
Proof.
  destruct c; simpl; try contradiction; intros Hc; auto.
  - unfold math_random. destruct (random w); auto.
  - subst id0. unfold db_update. destruct (previews w !! id) as [r|] eqn:Hr; simpl; auto.
    split.
    + rewrite dom_insert_L. apply elem_of_dom_2 in Hr.
      apply subseteq_union_1_L, singleton_subseteq_l. exact Hr.
    + intros id' Hne. apply lookup_insert_ne. congruence.
  - unfold fs_copy. destruct (copies w); auto.
  - unfold deploy_to_netlify. destruct (deploys w); auto.
Qed.

(** A run of processPreviewJob touches the row of its own job only: it
    inserts no row and deletes none, leaves every other row as it was, and
    leaves the queue as it was.  For a job that has no row it leaves the
    whole PreviewStore unchanged. *)
Theorem processPreviewJob_frame (d : PreviewJobData) (w : World) :
  let out := run handle (processPreviewJob d) w in
  dom (previews out.1) = dom (previews w) /\
  (forall id', id' <> jobId d -> previews out.1 !! id' = previews w !! id') /\
  jobs out.1 = jobs w /\
  (previews w !! jobId d = None -> previews out.1 = previews w).
Proof.
  cbv zeta.
  assert (Hinv : dom (previews (run handle (processPreviewJob d) w).1) = dom (previews w) /\
                 (forall id', id' <> jobId d ->
                    previews (run handle (processPreviewJob d) w).1 !! id' = previews w !! id') /\
                 jobs (run handle (processPreviewJob d) w).1 = jobs w).
  { apply (run_invariant handle (worker_call (jobId d))
             (fun w' => dom (previews w') = dom (previews w) /\
                        (forall id', id' <> jobId d -> previews w' !! id' = previews w !! id') /\
                        jobs w' = jobs w)).
    - intros c w' Hc (Hd & Ho & Hj).
      destruct (worker_call_previews (jobId d) c w' Hc) as [Hd' Ho'].
      split; [congruence|]. split.
      + intros id' Hne. rewrite Ho' by exact Hne. auto.
      + rewrite (worker_call_jobs (jobId d)) by exact Hc. exact Hj.
    - apply processPreviewJob_calls.
    - auto. }
  destruct Hinv as (Hd & Ho & Hj). repeat split; auto.
  intros Hnone. apply map_eq. intros id'.
  destruct (decide (id' = jobId d)) as [->|Hne]; [|auto].
  rewrite Hnone. apply not_elem_of_dom. rewrite Hd. apply not_elem_of_dom. exact Hnone.
Qed.

(** ** The cleanup of the worker *)

(** The directory the generator made is removed at most once in a run of
    processPreviewJob, and only after it was copied to; a run that resolves
    ends with its removal; a run that never gets the directory copied
    removes nothing. *)
Theorem processPreviewJob_cleanup {W : Type} (h : forall c : Call, W -> W * Outcome (Resp c))
    (d : PreviewJobData) (w : W) :
  let tr := trace h (processPreviewJob d) w in
  (length (remove_calls tr) <= 1)%nat /\
  (forall path, path ∈ remove_calls tr -> (templatePath, path) ∈ copy_calls tr) /\
  ((run h (processPreviewJob d) w).2 = Ok tt ->
   exists path, last tr = Some (FsRemove path) /\ remove_calls tr = [path]).
Proof.
  cbv zeta.
  unfold processPreviewJob, job_generate, job_deploy, job_finish, job_catch, generateAppCode.
  cbn [run trace bind try_catch await await_catch_ignore fst snd copy_template
       maxAttempts Nat.ltb Nat.leb Nat.eqb String.eqb].
  explore h.
  all: cbn [remove_calls copy_calls omap list_omap length snd];
    (split; [lia|]);
    (split; [intros path Hp; try (apply elem_of_nil in Hp; contradiction);
             apply list_elem_of_singleton in Hp; subst path;
             repeat first [apply list_elem_of_here | apply list_elem_of_further]|]);
    try discriminate; intros _; eexists; split; reflexivity.
Qed.

(** ** The processor of the queue *)

(** The processor handed to the queue is the pipeline and nothing more: it
    makes the calls of processPreviewJob, leaves the state it leaves, and
    resolves or throws as it does, with the same error. *)
Theorem processor_is_pipeline {W : Type} (h : forall c : Call, W -> W * Outcome (Resp c))
    (d : PreviewJobData) (w : W) :
  run h (processor d) w = run h (processPreviewJob d) w /\
  trace h (processor d) w = trace h (processPreviewJob d) w.
Proof.
  unfold processor. rewrite run_try_catch, trace_try_catch.
  destruct (run h (processPreviewJob d) w) as [w1 [[]|e]]; cbn [run trace];
    rewrite app_nil_r; auto.
Qed.

(** ** Submission and the first poll *)

Lemma count_state_insert (s : JobState) (id : string) (j : QueueEntry)
    (m : gmap string QueueEntry) :
  m !! id = None ->
  count_state s (<[id := j]> m) = (if bool_decide (state j = s) then 1 else 0) + count_state s m.
Proof.
  intros Hid. unfold count_state.
  assert (Hperm : (map_to_list (<[id := j]> m)).*2 ≡ₚ j :: (map_to_list m).*2).
  { rewrite map_to_list_insert by exact Hid. reflexivity. }
  assert (Hlen : forall l1 l2 : list QueueEntry, l1 ≡ₚ l2 ->
            length (List.filter (fun j => bool_decide (state j = s)) l1)
            = length (List.filter (fun j => bool_decide (state j = s)) l2)).
  { induction 1; cbn; repeat case_bool_decide; cbn; congruence. }
  rewrite (Hlen _ _ Hperm). cbn. case_bool_decide; cbn [length]; lia.
Qed.

Lemma post_preview_run (w : World) (req_body : JsValue) :
  missing_field req_body = false ->
  previews w !! next_job_id w = None ->
  jobs w !! next_job_id w = None ->
  run handle (OrchestratorApi.post_preview req_body) w
    = (set_jobs (insert (next_job_id w)
                   (submitted_entry w (get_field "prompt" req_body)
                      (get_field "userId" req_body)))
         (set_previews (insert (next_job_id w)
                          (submitted_row w (get_field "prompt" req_body)
                             (get_field "userId" req_body)))
            (match random w with [] => w | _ :: l => set_random l w end)),
       Ok (json (VObj [("success", VBool true);
                       ("message", VStr "Preview generation started in background");
                       ("jobId", VStr (next_job_id w));
                       ("statusUrl", VStr ("/api/preview/" ++ next_job_id w ++ "/status"))]))).
Proof.
  intros Hm Hp Hj.
  assert (Hbody : destructure_body req_body
                  = Ret (get_field "prompt" req_body, get_field "userId" req_body)).
  { destruct req_body; try reflexivity; discriminate Hm. }
  unfold missing_field in Hm.
  unfold OrchestratorApi.post_preview. rewrite Hbody. cbn [bind try_catch].
  rewrite Hm. unfold new_job_id.
  cbn [await bind try_catch run handle].
  unfold math_random, submitted_row, submitted_entry, next_job_id in *.
  destruct (random w) as [|rnd rest]; cbn [await bind try_catch run handle];
    unfold db_add; cbn [pid previews set_random now Resp]; rewrite Hp;
    cbn [await bind try_catch run handle]; unfold queue_add;
    cbn [jobs set_previews set_random Resp]; rewrite Hj;
    cbn [await bind try_catch run handle]; reflexivity.
Qed.

(** A valid submission on the orchestrator-api server, for a job id that
    is free: the answer is 200 with the job id and its status URL; the row
    is stored with status [building], no URL and no error; the entry is
    queued, waiting, with the 120 s timeout and the data of the request.
    The first status poll then finds the row [building], and since the
    aggregate counts include the new entry itself, it reports the position
    waiting + active + 2 of the counts before the submission: a job
    submitted to an idle queue is told position 2. *)
Theorem submit_then_poll (w : World) (req_body : JsValue) :
  missing_field req_body = false ->
  previews w !! next_job_id w = None ->
  jobs w !! next_job_id w = None ->
  let prompt := get_field "prompt" req_body in
  let userId := get_field "userId" req_body in
  let id := next_job_id w in
  let out := run handle (OrchestratorApi.post_preview req_body) w in
  code <$> resolved out = Some 200 /\
  answered "success" out = Some (VBool true) /\
  answered "jobId" out = Some (VStr id) /\
  answered "statusUrl" out = Some (VStr ("/api/preview/" ++ id ++ "/status")) /\
  previews out.1 = <[id := submitted_row w prompt userId]> (previews w) /\
  jobs out.1 = <[id := submitted_entry w prompt userId]> (jobs w) /\
  let poll := run handle (OrchestratorApi.get_status id) out.1 in
  poll.1 = out.1 /\
  code <$> resolved poll = Some 200 /\
  answered "status" poll = Some (VStr "building") /\
  answered "queuePosition" poll
    = Some (VNum (count_state Waiting (jobs w) + count_state Active (jobs w) + 2)) /\
  answered "estimatedTime" poll
    = Some (VNum ((count_state Waiting (jobs w) + count_state Active (jobs w) + 2) * 30)).
Proof.
  intros Hm Hp Hj. cbv zeta.
  pose proof (post_preview_run w req_body Hm Hp Hj) as Hout.
  rewrite Hout. cbn [fst snd].
  repeat (split; [reflexivity|]).
  split; [destruct (random w); reflexivity|].
  split; [destruct (random w); reflexivity|].
  match goal with |- context [run handle _ ?w1] => set (w' := w1) end.
  assert (Hp' : previews w' !! next_job_id w
                = Some (submitted_row w (get_field "prompt" req_body)
                          (get_field "userId" req_body))).
  { subst w'. cbn [previews set_jobs set_previews]. apply lookup_insert_eq. }
  assert (Hj' : jobs w' = <[next_job_id w := submitted_entry w (get_field "prompt" req_body)
                                               (get_field "userId" req_body)]> (jobs w)).
  { subst w'. destruct (random w); reflexivity. }
  assert (Hj'' : jobs w' !! next_job_id w
                 = Some (submitted_entry w (get_field "prompt" req_body)
                           (get_field "userId" req_body))).
  { rewrite Hj'. apply lookup_insert_eq. }
  assert (Hq : waiting (job_counts (jobs w')) + active (job_counts (jobs w')) + 1
               = count_state Waiting (jobs w) + count_state Active (jobs w) + 2).
  { cbn [job_counts waiting active]. rewrite Hj', !count_state_insert by exact Hj.
    cbn [submitted_entry state].
    rewrite bool_decide_eq_true_2 by reflexivity.
    rewrite bool_decide_eq_false_2 by discriminate. lia. }
  pose proof (position_truthy (jobs w')) as Ht. rewrite Hq in Ht.
  assert (Hpoll : run handle (OrchestratorApi.get_status (next_job_id w)) w'
    = (w', Ok (json (VObj ([("success", VBool true)] ++
         preview_fields (submitted_row w (get_field "prompt" req_body)
                           (get_field "userId" req_body)) ++
         [("queuePosition",
           VNum (count_state Waiting (jobs w) + count_state Active (jobs w) + 2));
          ("estimatedTime",
           VNum ((count_state Waiting (jobs w) + count_state Active (jobs w) + 2) * 30))]))))).
  { unfold OrchestratorApi.get_status.
    cbn [await bind try_catch run handle db_get queue_get_job]. rewrite Hp'.
    cbn [await bind try_catch run handle db_get queue_get_job]. rewrite Hj''.
    cbn [await bind try_catch run handle]. rewrite Hq, Ht. reflexivity. }
  rewrite Hpoll. repeat split; reflexivity.
Qed.

(** The first job of an installation is told position 2. *)
Lemma submit_then_poll_witness :
  let req := VObj [("prompt", VStr "todo app"); ("userId", VStr "u1")] in
  let id := "preview_1700000000000_k3j9x0q2m" in
  let out := run handle (OrchestratorApi.post_preview req) empty_world in
  answered "jobId" out = Some (VStr id) /\
  answered "status" (run handle (OrchestratorApi.get_status id) out.1) = Some (VStr "building") /\
  answered "queuePosition" (run handle (OrchestratorApi.get_status id) out.1) = Some (VNum 2).
Proof.
  pose proof (submit_then_poll empty_world
                (VObj [("prompt", VStr "todo app"); ("userId", VStr "u1")])
                eq_refl eq_refl eq_refl) as H.
  cbv zeta in H.
  destruct H as (_ & _ & Hid & _ & _ & _ & _ & _ & Hst & Hq & _).
  split; [exact Hid|]. split; [exact Hst|exact Hq].
Defined.

(** The handler of POST /api/preview on the orchestrator-api server never
    throws: it answers 200, 400 or 500.  It answers 400 without a call; and
    it answers 200 only after it inserted the row and enqueued the job, in
    this order, under one and the same id, with the prompt and the owner of
    the row, and the 120 s timeout. *)
Theorem post_preview_answers {W : Type} (h : forall c : Call, W -> W * Outcome (Resp c))
    (req_body : JsValue) (w : W) :
  exists resp : Response,
    (run h (OrchestratorApi.post_preview req_body) w).2 = Ok resp /\
    (code resp = 200 \/ code resp = 400 \/ code resp = 500) /\
    (code resp = 400 -> trace h (OrchestratorApi.post_preview req_body) w = []) /\
    (code resp = 200 ->
     exists (p : Preview) (d : PreviewJobData),
       trace h (OrchestratorApi.post_preview req_body) w
         = [DateNow; MathRandom36; DateNow; DateNow; DbAdd p; QueueAdd d (pid p) 120000] /\
       (jobId d, job_prompt d, job_userId d) = (pid p, prompt p, userId p) /\
       (status p, liveUrl p, error p) = ("building", None, None) /\
       truthy (prompt p) = true /\ truthy (userId p) = true).
Proof.
  unfold OrchestratorApi.post_preview.
  destruct req_body; cbn [destructure_body bind try_catch run trace get_field truthy negb orb
                          default from_option].
  1-2: eexists; split; [reflexivity|]; cbn; split; [auto|split; discriminate].
  1-5: eexists; split; [reflexivity|]; cbn; split; [auto|split; [reflexivity|discriminate]].
  destruct (truthy (default VUndefined (assoc_last "prompt" fields))) eqn:Hp;
    destruct (truthy (default VUndefined (assoc_last "userId" fields))) eqn:Hu;
    cbn [negb orb bind try_catch run trace].
  2-4: eexists; split; [reflexivity|]; cbn; split; [auto|split; [reflexivity|discriminate]].
  unfold new_job_id. cbn [await bind try_catch run trace fst snd].
  explore_calls h.
  all: eexists; (split; [reflexivity|]); cbn [code status_json json];
    (split; [auto|]); (split; [discriminate|]); try discriminate.
  intros _.
  match goal with
  | |- context [DbAdd ?p :: QueueAdd ?d _ _ :: _] => exists p, d
  end.
  split; [reflexivity|]. cbn. auto.
Qed.

(** ** Cancellation *)

Lemma delete_preview_run (w : World) (id : string) (r : Preview) :
  previews w !! id = Some r ->
  forall f : string -> Prog Response,
    (f = OrchestratorApi.delete_preview \/ f = LivePreviewEngine.delete_preview) ->
    run handle (f id) w
    = (set_previews (insert id (apply_changes (cancel_changes (now w)) r))
         (set_jobs (delete id) w), Ok cancelled).
Proof.
  intros Hr f [-> | ->];
    unfold OrchestratorApi.delete_preview, LivePreviewEngine.delete_preview;
    cbn [await bind try_catch run handle queue_get_job];
    (destruct (jobs w !! id) as [j|] eqn:Hj;
     cbn [await bind try_catch run handle job_remove];
     [ erewrite db_update_present by (cbn [previews set_jobs]; exact Hr); reflexivity
     | rewrite (db_update_present _ _ _ r Hr);
       cbn [await bind try_catch run]; unfold set_jobs;
       rewrite (delete_id (jobs w) id Hj); destruct w; reflexivity ]).
Qed.

(** Cancelling a job that has a row, on either server: the answer is 200,
    the entry leaves the queue, and the row becomes [failed] with the error
    'Cancelled by user'.  Nothing else of the row changes: a job that was
    already [live] is turned into [failed] and keeps its [liveUrl]. *)
Theorem cancel_marks_failed (w : World) (id : string) (r : Preview) :
  previews w !! id = Some r ->
  let r' := apply_changes (cancel_changes (now w)) r in
  let w' := set_previews (insert id r') (set_jobs (delete id) w) in
  run handle (OrchestratorApi.delete_preview id) w = (w', Ok cancelled) /\
  run handle (LivePreviewEngine.delete_preview id) w = (w', Ok cancelled) /\
  jobs w' !! id = None /\
  previews w' !! id = Some r' /\
  (status r', error r') = ("failed", Some "Cancelled by user") /\
  (pid r', prompt r', userId r', liveUrl r', createdAt r')
    = (pid r, prompt r, userId r, liveUrl r, createdAt r) /\
  (forall id', id' <> id ->
     previews w' !! id' = previews w !! id' /\ jobs w' !! id' = jobs w !! id').
Proof.
  intros Hr. cbv zeta.
  pose proof (delete_preview_run w id r Hr) as Hrun.
  split; [apply Hrun; auto|]. split; [apply Hrun; auto|].
  cbn [jobs previews set_previews set_jobs].
  split; [apply lookup_delete_eq|]. split; [apply lookup_insert_eq|].
  split; [reflexivity|]. split; [reflexivity|].
  intros id' Hne. split; [apply lookup_insert_ne|apply lookup_delete_ne]; congruence.
Qed.

(** Cancelling a job that is live: the row is failed, with its URL. *)
Lemma cancel_marks_failed_witness :
  let w := set_previews (insert "preview_1_abc" live_row1) (world1 "live" [] []) in
  let out := run handle (OrchestratorApi.delete_preview "preview_1_abc") w in
  status_of "preview_1_abc" w = Some "live" /\
  out.2 = Ok cancelled /\
  status_of "preview_1_abc" out.1 = Some "failed" /\
  (previews out.1 !! "preview_1_abc") ≫= liveUrl = Some "https://preview-1.netlify.app".
Proof.
  pose proof (cancel_marks_failed
                (set_previews (insert "preview_1_abc" live_row1) (world1 "live" [] []))
                "preview_1_abc" live_row1 eq_refl) as H.
  cbv zeta in H. destruct H as (Hrun & _).
  cbv zeta. rewrite Hrun. repeat split; reflexivity.
Defined.

(** ** Reading handlers *)

(** The status polls and the listings of both servers change nothing in
    the PreviewStore or the queue, and they answer 200 or 404, never 500,
    as long as the store and the queue answer their reads. *)
Theorem reads_change_nothing (w : World) (id : string) :
  reads_only (OrchestratorApi.get_status id) w /\
  reads_only (LivePreviewEngine.get_preview id) w /\
  reads_only (OrchestratorApi.get_previews id) w /\
  reads_only (LivePreviewEngine.get_previews id) w.
Proof.
  unfold reads_only, OrchestratorApi.get_status, LivePreviewEngine.get_preview,
         OrchestratorApi.get_previews, LivePreviewEngine.get_previews.
  cbn [await bind try_catch run handle db_get queue_get_job db_list_by_user fst snd].
  destruct (previews w !! id) as [p|];
    cbn [await bind try_catch run handle db_get queue_get_job fst snd];
    [ destruct (jobs w !! id) as [j|];
      cbn [await bind try_catch run handle db_get queue_get_job fst snd] | ];
    repeat split; try reflexivity; eexists; (split; [reflexivity|]); cbn; auto.
Qed.

(** ** Submission on the live-preview-engine server *)

(** The handler of POST /api/preview of live-preview-engine, on a body
    that is an object and for a job id that is free: whatever the body
    holds, the answer is 200; the row and the queue entry carry the prompt
    as it came (also when it is missing) and the same owner, the [userId]
    of the body or 'anonymous' when that is missing or empty; the status
    URL of the answer is the route of the status handler of this server,
    which finds the row [building]. *)
Theorem anonymous_owner_default (w : World) (req_body : JsValue) :
  req_body <> VUndefined -> req_body <> VNull ->
  previews w !! next_job_id w = None ->
  jobs w !! next_job_id w = None ->
  let prompt := get_field "prompt" req_body in
  let owner := js_or (get_field "userId" req_body) (VStr "anonymous") in
  let id := next_job_id w in
  let out := run handle (LivePreviewEngine.post_preview req_body) w in
  code <$> resolved out = Some 200 /\
  answered "previewId" out = Some (VStr id) /\
  answered "statusUrl" out = Some (VStr ("/api/preview/" ++ id)) /\
  previews out.1 = <[id := submitted_row w prompt owner]> (previews w) /\
  jobs out.1 = <[id := submitted_entry w prompt owner]> (jobs w) /\
  truthy owner = true /\
  (truthy (get_field "userId" req_body) = false -> owner = VStr "anonymous") /\
  answered "status" (run handle (LivePreviewEngine.get_preview id) out.1)
    = Some (VStr "building").
Proof.
  intros Hu Hn Hp Hj. cbv zeta.
  assert (Hbody : destructure_body req_body
                  = Ret (get_field "prompt" req_body, get_field "userId" req_body)).
  { destruct req_body; try reflexivity; contradiction. }
  assert (Hout : run handle (LivePreviewEngine.post_preview req_body) w
    = (set_jobs (insert (next_job_id w)
                   (submitted_entry w (get_field "prompt" req_body)
                      (js_or (get_field "userId" req_body) (VStr "anonymous"))))
         (set_previews (insert (next_job_id w)
                          (submitted_row w (get_field "prompt" req_body)
                             (js_or (get_field "userId" req_body) (VStr "anonymous"))))
            (match random w with [] => w | _ :: l => set_random l w end)),
       Ok (json (VObj [("success", VBool true);
                       ("previewId", VStr (next_job_id w));
                       ("message", VStr "Preview generation started in background");
                       ("statusUrl", VStr ("/api/preview/" ++ next_job_id w))])))).
  { unfold LivePreviewEngine.post_preview. rewrite Hbody. cbn [bind try_catch].
    unfold new_job_id. cbn [await bind try_catch run handle].
    unfold math_random, submitted_row, submitted_entry, next_job_id in *.
    destruct (random w) as [|rnd rest]; cbn [await bind try_catch run handle];
      unfold db_add; cbn [pid previews set_random now Resp]; rewrite Hp;
      cbn [await bind try_catch run handle]; unfold queue_add;
      cbn [jobs set_previews set_random Resp]; rewrite Hj;
      cbn [await bind try_catch run handle]; reflexivity. }
  rewrite Hout. cbn [fst snd].
  repeat (split; [reflexivity|]).
  split; [destruct (random w); reflexivity|].
  split; [destruct (random w); reflexivity|].
  split; [unfold js_or; destruct (truthy (get_field "userId" req_body)) eqn:Ht;
          [exact Ht|reflexivity]|].
  split; [unfold js_or; intros ->; reflexivity|].
  match goal with |- context [run handle _ ?w1] => set (w' := w1) end.
  assert (Hp' : previews w' !! next_job_id w
                = Some (submitted_row w (get_field "prompt" req_body)
                          (js_or (get_field "userId" req_body) (VStr "anonymous")))).
  { subst w'. cbn [previews set_jobs set_previews]. apply lookup_insert_eq. }
  unfold LivePreviewEngine.get_preview, answered, resolved.
  cbn [await bind try_catch run handle db_get queue_get_job]. rewrite Hp'.
  cbn [await bind try_catch run handle db_get queue_get_job].
  destruct (jobs w' !! next_job_id w);
    cbn [await bind try_catch run handle]; reflexivity.
Qed.

(** A submission that holds nothing at all is accepted for 'anonymous'. *)
Lemma anonymous_owner_default_witness :
  let out := run handle (LivePreviewEngine.post_preview (VObj [])) empty_world in
  let id := "preview_1700000000000_k3j9x0q2m" in
  code <$> resolved out = Some 200 /\
  (previews out.1 !! id) ≫= (fun p => Some (prompt p, userId p))
    = Some (VUndefined, VStr "anonymous").
Proof.
  pose proof (anonymous_owner_default empty_world (VObj [])
                ltac:(discriminate) ltac:(discriminate) eq_refl eq_refl) as H.
  cbv zeta in H. destruct H as (Hc & _ & _ & Hp & _).
  split; [exact Hc|]. cbv zeta. rewrite Hp. reflexivity.
Defined.

(** ** Failures of the deployment to Netlify *)

(** Without a token (unset or empty), deployToNetlify throws before it
    makes any request: its one call is the read of the token. *)
Theorem deploy_without_token {W : Type} (h : forall c : Call, W -> W * Outcome (Resp c))
    (w w1 : W) (appFolderPath siteName : string) (token : option string) :
  h (EnvGet "NETLIFY_TOKEN") w = (w1, Ok token) ->
  Netlify.no_token token = true ->
  run h (Netlify.deployToNetlify appFolderPath siteName) w
    = (w1, Err (Error "NETLIFY_TOKEN environment variable is not set")) /\
  trace h (Netlify.deployToNetlify appFolderPath siteName) w = [EnvGet "NETLIFY_TOKEN"].
Proof.
  intros Henv Hno. unfold Netlify.deployToNetlify.
  cbn [await bind try_catch run trace]. rewrite Henv.
  cbn [await bind try_catch run trace]. rewrite Hno. split; reflexivity.
Qed.

Lemma deploy_without_token_witness :
  run handle (Netlify.deployToNetlify "/tmp/preview_1_abc" "preview-1") empty_world
    = (empty_world, Err (Error "NETLIFY_TOKEN environment variable is not set")) /\
  trace handle (Netlify.deployToNetlify "/tmp/preview_1_abc" "preview-1") empty_world
    = [EnvGet "NETLIFY_TOKEN"].
Proof.
  apply (deploy_without_token handle empty_world empty_world _ _ None); reflexivity.
Defined.

(** With a token, deployToNetlify makes one request.  When the request
    fails with an axios error, it throws an Error whose message is
    'Netlify API error: ' followed by the message of the API's answer,
    converted to a string, if there is one that is truthy, and by the
    message of the axios error otherwise; any
    other failure of the request is thrown on as it is.  Whenever it
    resolves, the URL is not empty. *)
Theorem deploy_request_failures {W : Type} (h : forall c : Call, W -> W * Outcome (Resp c))
    (w w1 w2 : W) (appFolderPath siteName token : string) (o : Outcome AxiosResponse) :
  h (EnvGet "NETLIFY_TOKEN") w = (w1, Ok (Some token)) ->
  token <> "" ->
  h (Netlify.site_request token siteName) w1 = (w2, o) ->
  let out := run h (Netlify.deployToNetlify appFolderPath siteName) w in
  out.1 = w2 /\
  trace h (Netlify.deployToNetlify appFolderPath siteName) w
    = [EnvGet "NETLIFY_TOKEN"; Netlify.site_request token siteName] /\
  (forall message response_message,
     o = Err (AxiosError message response_message) ->
     out.2 = Err (Error ("Netlify API error: " ++
                         match response_message with
                         | Some text => text
                         | None => message
                         end))) /\
  (forall e, o = Err e -> (forall m rm, e <> AxiosError m rm) -> out.2 = Err e) /\
  (forall url, out.2 = Ok url -> url <> "" /\ exists resp, o = Ok resp).
Proof.
  intros Henv Htok Hpost.
  assert (Hno : Netlify.no_token (Some token) = false).
  { cbn. destruct (String.eqb_spec token ""); [contradiction|reflexivity]. }
  cbv zeta. unfold Netlify.deployToNetlify.
  cbn [await bind try_catch run trace]. rewrite Henv.
  cbn [await bind try_catch run trace]. rewrite Hno.
  cbn [await bind try_catch run trace default from_option id]. rewrite Hpost.
  destruct o as [resp|e]; cbn [await bind try_catch run trace fst snd].
  - destruct (resp_data resp); cbn [await bind try_catch run trace Netlify.read_id fst snd];
      (split; [reflexivity|]); (split; [reflexivity|]);
      (split; [intros ? ? [=]|]); (split; [intros ? [=]|]);
      intros url Hurl; try discriminate Hurl; injection Hurl as <-;
      (split; [discriminate|eauto]).
  - destruct e as [m|m rm|v]; cbn [run fst snd];
      (split; [reflexivity|]); (split; [reflexivity|]);
      (split; [intros ? [rm'|] [=]; subst; reflexivity|]);
      (split; [intros e' [= <-] Hna; first [reflexivity | exfalso; eapply Hna; reflexivity]|]);
      intros url [=].
Qed.

(** The API refuses the site name: its message is what is thrown. *)
Lemma deploy_request_failures_witness :
  let w := set_posts [Err (AxiosError "Request failed with status code 422"
                                      (Some "name already taken"))] netlify_world in
  (run handle (Netlify.deployToNetlify "/tmp/preview_1_abc" "preview-1") w).2
    = Err (Error "Netlify API error: name already taken").
Proof.
  pose proof (deploy_request_failures handle
                (set_posts [Err (AxiosError "Request failed with status code 422"
                                            (Some "name already taken"))] netlify_world)
                _ _ "/tmp/preview_1_abc" "preview-1" "nfp_token" _
                eq_refl ltac:(discriminate) eq_refl) as H.
  cbv zeta in H. destruct H as (_ & _ & Hax & _).
  exact (Hax _ _ eq_refl).
Defined.

(** ** The inline pipeline of the first server *)

(** The pipeline of the first server calls two imported functions,
    [generateAppCode] and [deployToNetlify]; what follows holds whatever
    they are. *)



(** The calls of the [deployToNetlify] of services/netlify.ts leave the
    PreviewStore as it is. *)
Lemma deployToNetlify_no_store_write (appFolderPath siteName : string) :
  all_calls no_store_write (Netlify.deployToNetlify appFolderPath siteName).
Proof.
  unfold Netlify.deployToNetlify.
  split; [exact I|]. intros [token|e]; cbn [bind await]; [|exact I].
  destruct (Netlify.no_token token); [exact I|].
  cbn [bind await try_catch]. split; [exact I|].
  intros [resp|e]; cbn [bind await try_catch].
  - destruct (resp_data resp); exact I.
  - destruct e; exact I.
Qed.







(** The inline pipeline catches every error of its [try] block, and its
    [catch] block awaits the update that records the failure: whatever the
    capabilities answer and whatever the imported functions do, a run
    resolves, or else it rejects with the error of a call of the [catch]
    block, the read of the clock or the update that writes [failed]. *)
Theorem inline_pipeline_settles {W : Type} (h : forall c : Call, W -> W * Outcome (Resp c))
    (generateAppCode : JsValue -> Prog string)
    (deployToNetlify : string -> string -> Prog string)
    (previewId : string) (prompt : JsValue) (w : W) :
  let out := run h (Legacy.processPreview generateAppCode deployToNetlify previewId prompt) w in
  out.2 = Ok tt \/
  exists e : JsError,
    out.2 = Err e /\
    ((exists w', (h DateNow w').2 = Err e) \/
     (exists (cause : JsError) (t : Z) (w' : W),
        (h (DbUpdate previewId (Legacy.failed_changes (Legacy.error_message cause) t)) w').2
        = Err e)).
Proof.
  cbv zeta. unfold Legacy.processPreview. rewrite run_try_catch.
  match goal with |- context [run h ?body w] => destruct (run h body w) as [w1 [[]|cause]] end;
    [left; reflexivity|].
  unfold Legacy.record_failure. cbn [run bind await].
  destruct (h DateNow w1) as [w2 [t|e]] eqn:Hnow; cbn [run bind await].
  - destruct (h (DbUpdate previewId (Legacy.failed_changes (Legacy.error_message cause) t)) w2)
      as [w3 [n|e]] eqn:Hupd; cbn [run bind await]; [left; reflexivity|].
    right. exists e. split; [reflexivity|]. right. exists cause, t, w2. rewrite Hupd. reflexivity.
  - right. exists e. split; [reflexivity|]. left. exists w1. rewrite Hnow. reflexivity.
Qed.


(** On a PreviewStore that refuses the updates, the pipeline rejects. *)
Example inline_pipeline_rejects :
  (run closed_store
     (Legacy.processPreview (fun _ => Throw (not_exported "generateAppCode"))
        Netlify.deployToNetlify "preview_1_abc" (VStr "todo app"))
     (world1 "initializing" [] [])).2
  = Err (Error "DatabaseClosedError").
Proof. reflexivity. Qed.


(** ** The inline pipeline against the PreviewStore *)

Lemma no_store_write_previews (c : Call) (w : World) :
  no_store_write c -> previews (handle c w).1 = previews w.
Proof.
  destruct c; cbn; try contradiction; intros _; trivial.
  - unfold math_random. destruct (random w); reflexivity.
  - unfold queue_add. destruct (jobs w !! opt_jobId); reflexivity.
  - unfold fs_copy. destruct (copies w); reflexivity.
  - unfold deploy_to_netlify. destruct (deploys w); reflexivity.
  - unfold axios_post. destruct (posts w); reflexivity.
Qed.

Lemma no_store_write_frame {R : Type} (p : Prog R) (w : World) :
  all_calls no_store_write p -> previews (run handle p w).1 = previews w.
Proof.
  intros Hp.
  apply (run_invariant handle no_store_write (fun w' => previews w' = previews w) p);
    [|exact Hp|reflexivity].
  intros c w' Hc Hw'. rewrite no_store_write_previews; assumption.
Qed.

(** On a row that exists, with imported functions that leave the
    PreviewStore alone, the inline pipeline resolves and leaves the row
    [live] or [failed]. *)
Lemma inline_pipeline_runs (generateAppCode : JsValue -> Prog string)
    (deployToNetlify : string -> string -> Prog string)
    (previewId : string) (prompt : JsValue) (w : World) (r : Preview) :
  previews w !! previewId = Some r ->
  all_calls no_store_write (generateAppCode prompt) ->
  (forall appCode, all_calls no_store_write (deployToNetlify appCode previewId)) ->
  let out := run handle
               (Legacy.processPreview generateAppCode deployToNetlify previewId prompt) w in
  out.2 = Ok tt /\
  exists r' : Preview,
    previews out.1 !! previewId = Some r' /\
    same_request r r' /\
    inline_outcome generateAppCode deployToNetlify previewId prompt r r'.
Proof.
  intros Hr Hgen Hdep. cbv zeta.
  unfold Legacy.processPreview. rewrite run_try_catch.
  cbn [run bind await handle]. rewrite (db_update_present _ _ _ r Hr).
  cbn [run bind await]. rewrite run_bind.
  set (w1 := set_previews _ w).
  pose proof (no_store_write_frame (generateAppCode prompt) w1 Hgen) as Hf1.
  destruct (run handle (generateAppCode prompt) w1) as [w2 [appCode|e]] eqn:Hrun1;
    cbn [fst] in Hf1.
  - assert (Hr2 : previews w2 !! previewId
                  = Some (apply_changes (Legacy.status_change "generating_code") r)).
    { rewrite Hf1. unfold w1. cbn [previews set_previews]. apply lookup_insert_eq. }
    cbn [run bind await handle]. rewrite (db_update_present _ _ _ _ Hr2).
    cbn [run bind await]. rewrite run_bind.
    match goal with |- context [run handle (deployToNetlify appCode previewId) ?w0] =>
      pose proof (no_store_write_frame (deployToNetlify appCode previewId) w0 (Hdep appCode))
        as Hf2;
      destruct (run handle (deployToNetlify appCode previewId) w0) as [w4 [url|e]] eqn:Hrun2
    end; cbn [fst previews set_previews] in Hf2.
    + assert (Hr4 : previews w4 !! previewId
                    = Some (apply_changes (Legacy.status_change "deploying")
                              (apply_changes (Legacy.status_change "generating_code") r))).
      { rewrite Hf2. apply lookup_insert_eq. }
      cbn [run bind await handle]. rewrite (db_update_present _ _ _ _ Hr4).
      cbn [run bind await fst snd previews set_previews].
      split; [reflexivity|]. eexists. split; [apply lookup_insert_eq|].
      split; [reflexivity|]. left. cbn.
      split; [reflexivity|]. split; [reflexivity|].
      do 4 eexists. split; [exact Hrun2|]. split; reflexivity.
    + assert (Hr4 : previews w4 !! previewId
                    = Some (apply_changes (Legacy.status_change "deploying")
                              (apply_changes (Legacy.status_change "generating_code") r))).
      { rewrite Hf2. apply lookup_insert_eq. }
      unfold Legacy.record_failure.
      cbn [run bind await handle]. rewrite (db_update_present _ _ _ _ Hr4).
      cbn [run bind await fst snd previews set_previews].
      split; [reflexivity|]. eexists. split; [apply lookup_insert_eq|].
      split; [reflexivity|]. right. cbn.
      split; [reflexivity|]. split; [reflexivity|].
      do 3 eexists. split; [reflexivity|]. split; [reflexivity|]. right. eexists. exact Hrun2.
  - assert (Hr2 : previews w2 !! previewId
                  = Some (apply_changes (Legacy.status_change "generating_code") r)).
    { rewrite Hf1. unfold w1. cbn [previews set_previews]. apply lookup_insert_eq. }
    unfold Legacy.record_failure.
    cbn [run bind await handle]. rewrite (db_update_present _ _ _ _ Hr2).
    cbn [run bind await fst snd previews set_previews].
    split; [reflexivity|]. eexists. split; [apply lookup_insert_eq|].
    split; [reflexivity|]. right. cbn.
    split; [reflexivity|]. split; [reflexivity|].
    do 3 eexists. split; [reflexivity|]. split; [reflexivity|]. left. exact Hrun1.
Qed.


(** With [generateAppCode] resolving to a directory and the
    [deployToNetlify] of services/netlify.ts, the row ends [live] with the
    URL made from the preview id. *)
Example inline_pipeline_live :
  let generate := fun _ : JsValue => Ret "/tmp/preview_5_k3j9x0q2m" in
  let out := run handle
               (Legacy.processPreview generate Netlify.deployToNetlify "preview_1_abc"
                  (VStr "todo app"))
               (set_previews (fun _ => {[ "preview_1_abc" := row1 "initializing" ]})
                             netlify_world) in
  out.2 = Ok tt /\
  status_of "preview_1_abc" out.1 = Some "live" /\
  (previews out.1 !! "preview_1_abc") ≫= liveUrl = Some "https://preview_1_abc.netlify.app".
Proof. vm_compute. repeat split; reflexivity. Qed.


(** ** The handlers of the first server *)


(** The poll of the first server after the pipeline has run on a row, with
    imported functions that leave the PreviewStore alone: the pipeline has
    resolved; the poll changes nothing and answers 200, with the status
    [live] and a URL that [deployToNetlify] resolved to, or with the status
    [failed], the message of the error that [generateAppCode] or
    [deployToNetlify] threw, and the [liveUrl] the row had. *)
Theorem inline_poll_after_run (generateAppCode : JsValue -> Prog string)
    (deployToNetlify : string -> string -> Prog string)
    (previewId : string) (prompt : JsValue) (w : World) (r : Preview) :
  previews w !! previewId = Some r ->
  all_calls no_store_write (generateAppCode prompt) ->
  (forall appCode, all_calls no_store_write (deployToNetlify appCode previewId)) ->
  let out := run handle
               (Legacy.processPreview generateAppCode deployToNetlify previewId prompt) w in
  let poll := run handle (Legacy.get_preview previewId) out.1 in
  out.2 = Ok tt /\
  poll.1 = out.1 /\
  code <$> resolved poll = Some 200 /\
  ((answered "status" poll = Some (VStr "live") /\
    exists (appCode url : string) (wa wb : World),
      run handle (deployToNetlify appCode previewId) wa = (wb, Ok url) /\
      answered "liveUrl" poll = Some (VStr url)) \/
   (answered "status" poll = Some (VStr "failed") /\
    answered "liveUrl" poll = Some (null_or_str (liveUrl r)) /\
    exists (e : JsError) (wa wb : World),
      (run handle (generateAppCode prompt) wa = (wb, Err e) \/
       exists appCode, run handle (deployToNetlify appCode previewId) wa = (wb, Err e)) /\
      answered "error" poll = Some (VStr (Legacy.error_message e)))).
Proof.
  intros Hr Hgen Hdep. cbv zeta.
  destruct (inline_pipeline_runs generateAppCode deployToNetlify previewId prompt w r
              Hr Hgen Hdep) as (Hok & r' & Hr' & _ & Hcases).
  split; [exact Hok|].
  unfold Legacy.get_preview, answered, resolved.
  cbn [await bind run handle db_get]. rewrite Hr'. cbn [await bind run fst snd].
  split; [reflexivity|]. split; [reflexivity|].
  unfold Legacy.row_fields.
  destruct Hcases as [(Hs & _ & appCode & url & wa & wb & Hrun & Hu & Ht)
                     | (Hs & Hu & e & wa & wb & Hm & Ht & Hrun)].
  - left. rewrite Hs, Hu, Ht. split; [destruct (error r'); reflexivity|].
    exists appCode, url, wa, wb. split; [exact Hrun|]. destruct (error r'); reflexivity.
  - right. rewrite Hs, Hu, Hm, Ht. split; [reflexivity|]. split; [reflexivity|].
    exists e, wa, wb. split; [exact Hrun|reflexivity].
Qed.


(** With [generateAppCode] bound to nothing, the poll shows the job
    [failed] with the message of the TypeError. *)
Lemma inline_poll_after_run_witness :
  let out := run handle
               (Legacy.processPreview (fun _ => Throw (not_exported "generateAppCode"))
                  Netlify.deployToNetlify "preview_1_abc" (VStr "todo app"))
               (world1 "initializing" [] []) in
  let poll := run handle (Legacy.get_preview "preview_1_abc") out.1 in
  out.2 = Ok tt /\
  poll.1 = out.1 /\
  code <$> resolved poll = Some 200 /\
  answered "status" poll = Some (VStr "failed") /\
  answered "error" poll = Some (VStr "generateAppCode is not a function").
Proof.
  pose proof (inline_poll_after_run (fun _ => Throw (not_exported "generateAppCode"))
                Netlify.deployToNetlify "preview_1_abc" (VStr "todo app")
                (world1 "initializing" [] []) (row1 "initializing") eq_refl I
                (fun appCode => deployToNetlify_no_store_write appCode "preview_1_abc")) as H.
  cbv zeta in H. destruct H as (H0 & H1 & H2 & _).
  split; [exact H0|]. split; [exact H1|]. split; [exact H2|]. split; reflexivity.
Defined.


(** ** Handlers one after the other *)

(** The poll after a cancellation, on the orchestrator-api server: the job
    is [failed] with the error 'Cancelled by user', and since its entry has
    left the queue the poll carries neither a position nor an estimate. *)
Theorem cancel_then_poll (w : World) (id : string) (r : Preview) :
  previews w !! id = Some r ->
  let out := run handle (OrchestratorApi.delete_preview id) w in
  let poll := run handle (OrchestratorApi.get_status id) out.1 in
  code <$> resolved poll = Some 200 /\
  answered "status" poll = Some (VStr "failed") /\
  answered "error" poll = Some (VStr "Cancelled by user") /\
  answered "liveUrl" poll = Some (null_or_str (liveUrl r)) /\
  answered "queuePosition" poll = Some VNull /\
  answered "estimatedTime" poll = Some VNull.
Proof.
  intros Hr. cbv zeta.
  rewrite (delete_preview_run w id r Hr OrchestratorApi.delete_preview) by auto.
  cbn [fst]. unfold OrchestratorApi.get_status, answered, resolved.
  cbn [await bind try_catch run handle db_get queue_get_job previews jobs
       set_previews set_jobs].
  rewrite lookup_insert_eq.
  cbn [await bind try_catch run handle db_get queue_get_job previews jobs
       set_previews set_jobs].
  rewrite lookup_delete_eq.
  cbn [await bind try_catch run handle]. repeat split; reflexivity.
Qed.

Lemma cancel_then_poll_witness :
  let w := world1 "generating" [] [] in
  let out := run handle (OrchestratorApi.delete_preview "preview_1_abc") w in
  let poll := run handle (OrchestratorApi.get_status "preview_1_abc") out.1 in
  answered "status" poll = Some (VStr "failed") /\
  answered "queuePosition" poll = Some VNull /\
  answered "estimatedTime" poll = Some VNull.
Proof.
  pose proof (cancel_then_poll (world1 "generating" [] []) "preview_1_abc"
                (row1 "generating") eq_refl) as H.
  cbv zeta in H. destruct H as (_ & Hs & _ & _ & Hq & He).
  split; [exact Hs|]. split; [exact Hq|exact He].
Defined.

(** A job submitted on the orchestrator-api server by the owner [user]
    appears in the listing of [user]: the listing after the submission
    holds the new row and the rows it held before, and no other. *)
Theorem submit_then_list (w : World) (req_body : JsValue) (user : string) :
  missing_field req_body = false ->
  previews w !! next_job_id w = None ->
  jobs w !! next_job_id w = None ->
  get_field "userId" req_body = VStr user ->
  let out := run handle (OrchestratorApi.post_preview req_body) w in
  let row := submitted_row w (get_field "prompt" req_body) (VStr user) in
  forall p : Preview,
    p ∈ list_by_user user (previews out.1) <->
    p = row \/ p ∈ list_by_user user (previews w).
Proof.
  intros Hm Hp Hj Hu. cbv zeta. intros p.
  rewrite (post_preview_run w req_body Hm Hp Hj). cbn [fst].
  assert (Hprev : forall w0 : World,
            previews (match random w with [] => w0 | _ :: l => set_random l w0 end)
            = previews w0).
  { intros w0. destruct (random w); reflexivity. }
  cbn [previews set_jobs set_previews]. rewrite Hprev, Hu.
  rewrite !list_by_user_elem. split.
  - intros (id & Hid & Hown).
    destruct (decide (id = next_job_id w)) as [->|Hne].
    + rewrite lookup_insert_eq in Hid. injection Hid as <-. left. reflexivity.
    + rewrite lookup_insert_ne in Hid by congruence. right. eauto.
  - intros [-> | (id & Hid & Hown)].
    + exists (next_job_id w). split; [apply lookup_insert_eq|reflexivity].
    + exists id. split; [|exact Hown].
      rewrite lookup_insert_ne; [exact Hid|]. intros <-. congruence.
Qed.

Lemma submit_then_list_witness :
  let req := VObj [("prompt", VStr "todo app"); ("userId", VStr "u1")] in
  let out := run handle (OrchestratorApi.post_preview req) empty_world in
  submitted_row empty_world (VStr "todo app") (VStr "u1")
    ∈ list_by_user "u1" (previews out.1).
Proof.
  apply (submit_then_list empty_world
           (VObj [("prompt", VStr "todo app"); ("userId", VStr "u1")]) "u1"
           eq_refl eq_refl eq_refl eq_refl).
  left. reflexivity.
Defined.

